(** * Order and Payment Service (order-service/index.js)

    A shallow embedding of the Express handlers of the order service and of
    the five PostgreSQL tables they work on, followed by the properties of
    the cart -> order -> payment pipeline.

    Conventions of the embedding.
    - A table is the list of its rows, in insertion order.  A [SERIAL]
      primary key is drawn from the table's sequence.
    - [DECIMAL(10,2)] amounts are counted in hundredths, as a [Z]; the
      arithmetic of the handlers on amounts is the arithmetic of [Z].
      With that representation [Math.round(total_amount * 100)], the
      amount in cents handed to the gateway, is the stored number itself.
    - The [created_at] / [updated_at] columns are left out: no handler
      reads them except the [ORDER BY] of [GET /orders].
    - [req.user.id] is the identifier the [auth] middleware extracted; the
      handlers below start after it.
    - Row identifiers are integers, as their columns are: the path
      parameter [:itemId] and the [order_id] of a request body range over
      [Z].
    - Requests are served one at a time: a handler runs to its answer on
      the store the previous request left.
    - Every [await client.query(...)] may reject.  The statements of one
      request draw, in order, one boolean each from a fault schedule
      ([true]: the statement is rejected before it runs); the empty
      schedule is a run in which the store executes every statement. *)

From Stdlib Require Import ZArith List String Bool Lia Permutation.
Import ListNotations.
Local Open Scope Z_scope.
Local Open Scope string_scope.
Local Open Scope list_scope.

(** ** The relational store (schema of [initializeDatabase]) *)

(** [shopping_carts (id, user_id)] *)
Record shopping_cart := {
  sc_id : Z;
  sc_user_id : string
}.

(** [cart_items (id, cart_id, product_id, quantity, price)] *)
Record cart_item := {
  ci_id : Z;
  ci_cart_id : Z;
  ci_product_id : string;
  ci_quantity : Z;
  ci_price : Z
}.

(** [orders (id, user_id, status, total_amount, shipping_address)];
    the JSONB address is opaque. *)
Record order := {
  o_id : Z;
  o_user_id : string;
  o_status : string;
  o_total_amount : Z;
  o_shipping_address : string
}.

(** [order_items (id, order_id, product_id, quantity, price)] *)
Record order_item := {
  oi_id : Z;
  oi_order_id : Z;
  oi_product_id : string;
  oi_quantity : Z;
  oi_price : Z
}.

(** [payments (id, order_id, amount, status, payment_method, transaction_id)] *)
Record payment := {
  p_id : Z;
  p_order_id : Z;
  p_amount : Z;
  p_status : string;
  p_payment_method : string;
  p_transaction_id : string
}.

Record Tables := {
  shopping_carts : list shopping_cart;
  cart_items : list cart_item;
  orders : list order;
  order_items : list order_item;
  payments : list payment
}.

(** Last value handed out by the sequence behind each [SERIAL] column. *)
Record Sequences := {
  shopping_carts_id_seq : Z;
  cart_items_id_seq : Z;
  orders_id_seq : Z;
  order_items_id_seq : Z;
  payments_id_seq : Z
}.

Record Store := {
  tables : Tables;
  seqs : Sequences
}.

Definition set_shopping_carts (l : list shopping_cart) (t : Tables) : Tables :=
  {| shopping_carts := l; cart_items := cart_items t; orders := orders t;
     order_items := order_items t; payments := payments t |}.

Definition set_cart_items (l : list cart_item) (t : Tables) : Tables :=
  {| shopping_carts := shopping_carts t; cart_items := l; orders := orders t;
     order_items := order_items t; payments := payments t |}.

Definition set_orders (l : list order) (t : Tables) : Tables :=
  {| shopping_carts := shopping_carts t; cart_items := cart_items t; orders := l;
     order_items := order_items t; payments := payments t |}.

Definition set_order_items (l : list order_item) (t : Tables) : Tables :=
  {| shopping_carts := shopping_carts t; cart_items := cart_items t; orders := orders t;
     order_items := l; payments := payments t |}.

Definition set_payments (l : list payment) (t : Tables) : Tables :=
  {| shopping_carts := shopping_carts t; cart_items := cart_items t; orders := orders t;
     order_items := order_items t; payments := l |}.

(** ** Errors, responses and the gateway *)

Inductive pg_error :=
| not_null_violation (column : string)
| statement_rejected.

(** What [stripe.paymentIntents.create] can reject with.  The Stripe client
    is an external library: the handler receives its answer from the
    environment. *)
Inductive stripe_error :=
| card_declined (reason : string)
| connection_timeout
| api_error (message : string).

(** The values a handler can find in [catch (error)]. *)
Inductive exn :=
| Error (message : string)
| DatabaseError (e : pg_error)
| StripeError (e : stripe_error).

Inductive payload :=
| Message (message : string)
| Caught (error : exn)
| OrderRow (row : order)
| CartItemRows (rows : list cart_item)
| OrderRows (rows : list (order * list order_item)).

(** [res.status(n).send(x)]; [res.send(x)] alone answers 200. *)
Record response := {
  status : Z;
  body : payload
}.

Module stripe.

(** The argument of [stripe.paymentIntents.create]. *)
Record params := {
  amount : Z;
  currency : string;
  payment_method : option string;
  confirm : bool
}.

Record paymentIntent := {
  id : string
}.

End stripe.

(** The environment's answer to one charge request. *)
Definition gateway := stripe.params -> stripe_error + stripe.paymentIntent.

(** ** The client connection and the monad of a handler body *)

(** A pooled client: the store as this connection sees it, the tables as
    they were at [BEGIN] while a transaction is open, and the faults the
    environment still holds for the coming statements. *)
Record Client := {
  db : Store;
  snapshot : option Tables;
  pending_faults : list bool
}.

Inductive outcome (A : Type) :=
| Returned (a : A)
| Thrown (e : exn).
Arguments Returned {A} a.
Arguments Thrown {A} e.

Definition M (A : Type) : Type := Client -> outcome A * Client.

Definition ret {A} (a : A) : M A := fun c => (Returned a, c).

Definition throw {A} (e : exn) : M A := fun c => (Thrown e, c).

Definition bind {A B} (m : M A) (k : A -> M B) : M B :=
  fun c =>
    match m c with
    | (Returned a, c') => k a c'
    | (Thrown e, c') => (Thrown e, c')
    end.

(** [try { body } catch (error) { handler }] *)
Definition try_catch {A} (body : M A) (handler : exn -> M A) : M A :=
  fun c =>
    match body c with
    | (Returned a, c') => (Returned a, c')
    | (Thrown e, c') => handler e c'
    end.

Declare Scope handler_scope.
Delimit Scope handler_scope with handler.
Notation "x <- m ;; k" := (bind m (fun x => k))
  (at level 100, m at next level, right associativity) : handler_scope.
Notation "m ;; k" := (bind m (fun _ => k))
  (at level 100, right associativity) : handler_scope.
Local Open Scope handler_scope.

(** [for (const x of xs) { await f(x) }] *)
Fixpoint for_of {A} (xs : list A) (f : A -> M unit) : M unit :=
  match xs with
  | [] => ret tt
  | x :: rest => f x ;; for_of rest f
  end.

Definition draw_fault (c : Client) : bool * Client :=
  (hd false (pending_faults c),
   {| db := db c; snapshot := snapshot c; pending_faults := tl (pending_faults c) |}).

(** [await client.query(sql, params)] for a statement [stmt].  A rejected
    statement leaves the store as it was; a statement that runs returns its
    rows or raises a constraint violation. *)
Definition query {A} (stmt : Store -> Store * (pg_error + A)) : M A :=
  fun c =>
    let (fault, c1) := draw_fault c in
    if fault then (Thrown (DatabaseError statement_rejected), c1)
    else
      let (s', r) := stmt (db c1) in
      let c2 := {| db := s'; snapshot := snapshot c1; pending_faults := pending_faults c1 |} in
      match r with
      | inl e => (Thrown (DatabaseError e), c2)
      | inr a => (Returned a, c2)
      end.

(** [await client.query('BEGIN')] *)
Definition BEGIN : M unit :=
  fun c =>
    let (fault, c1) := draw_fault c in
    if fault then (Thrown (DatabaseError statement_rejected), c1)
    else
      (Returned tt,
       {| db := db c1;
          snapshot := match snapshot c1 with
                      | Some t => Some t
                      | None => Some (tables (db c1))
                      end;
          pending_faults := pending_faults c1 |}).

(** [await client.query('COMMIT')] *)
Definition COMMIT : M unit :=
  fun c =>
    let (fault, c1) := draw_fault c in
    if fault then (Thrown (DatabaseError statement_rejected), c1)
    else (Returned tt, {| db := db c1; snapshot := None; pending_faults := pending_faults c1 |}).

(** [await client.query('ROLLBACK')].  The open transaction is undone:
    every table is as at [BEGIN]; sequences are not transactional and keep
    their values.  Outside a transaction nothing happens.  A connection
    lost at this point aborts the transaction on the server as well, so the
    effect on the store is the same. *)
Definition ROLLBACK : M unit :=
  fun c =>
    (Returned tt,
     {| db := match snapshot c with
              | Some t => {| tables := t; seqs := seqs (db c) |}
              | None => db c
              end;
        snapshot := None;
        pending_faults := pending_faults c |}).

(** A handler serves one request on a fresh client from the pool. *)
Definition serve (h : M response) (faults : list bool) (s : Store) : Store * outcome response :=
  let (r, c) := h {| db := s; snapshot := None; pending_faults := faults |} in
  (db c, r).

(** ** The SQL statements of the handlers *)

Definition next_shopping_carts_id (q : Sequences) : Sequences :=
  {| shopping_carts_id_seq := shopping_carts_id_seq q + 1;
     cart_items_id_seq := cart_items_id_seq q;
     orders_id_seq := orders_id_seq q;
     order_items_id_seq := order_items_id_seq q;
     payments_id_seq := payments_id_seq q |}.

Definition next_cart_items_id (q : Sequences) : Sequences :=
  {| shopping_carts_id_seq := shopping_carts_id_seq q;
     cart_items_id_seq := cart_items_id_seq q + 1;
     orders_id_seq := orders_id_seq q;
     order_items_id_seq := order_items_id_seq q;
     payments_id_seq := payments_id_seq q |}.

Definition next_orders_id (q : Sequences) : Sequences :=
  {| shopping_carts_id_seq := shopping_carts_id_seq q;
     cart_items_id_seq := cart_items_id_seq q;
     orders_id_seq := orders_id_seq q + 1;
     order_items_id_seq := order_items_id_seq q;
     payments_id_seq := payments_id_seq q |}.

Definition next_order_items_id (q : Sequences) : Sequences :=
  {| shopping_carts_id_seq := shopping_carts_id_seq q;
     cart_items_id_seq := cart_items_id_seq q;
     orders_id_seq := orders_id_seq q;
     order_items_id_seq := order_items_id_seq q + 1;
     payments_id_seq := payments_id_seq q |}.

Definition next_payments_id (q : Sequences) : Sequences :=
  {| shopping_carts_id_seq := shopping_carts_id_seq q;
     cart_items_id_seq := cart_items_id_seq q;
     orders_id_seq := orders_id_seq q;
     order_items_id_seq := order_items_id_seq q;
     payments_id_seq := payments_id_seq q + 1 |}.

(** [SELECT ... FROM shopping_carts WHERE user_id = $1], all columns *)
Definition carts_of (user : string) (t : Tables) : list shopping_cart :=
  filter (fun sc => sc_user_id sc =? user) (shopping_carts t).

Definition select_shopping_carts (user : string) (s : Store)
  : Store * (pg_error + list shopping_cart) :=
  (s, inr (carts_of user (tables s))).

(** [INSERT INTO shopping_carts (user_id) VALUES ($1)], returning the row *)
Definition insert_shopping_cart (user : string) (s : Store)
  : Store * (pg_error + list shopping_cart) :=
  let q := next_shopping_carts_id (seqs s) in
  let row := {| sc_id := shopping_carts_id_seq q; sc_user_id := user |} in
  ({| tables := set_shopping_carts (shopping_carts (tables s) ++ [row]) (tables s);
      seqs := q |},
   inr [row]).

(** [INSERT INTO cart_items (cart_id, product_id, quantity, price)
     VALUES ($1, $2, $3, $4)]; an [undefined] field of the request body is
    sent as NULL and the three columns are NOT NULL.  The default of [id]
    is evaluated before the constraints are checked. *)
Definition insert_cart_item (cart_id : Z) (product_id : option string)
    (quantity price : option Z) (s : Store) : Store * (pg_error + unit) :=
  let q := next_cart_items_id (seqs s) in
  match product_id, quantity, price with
  | Some pid, Some qty, Some pr =>
      let row := {| ci_id := cart_items_id_seq q; ci_cart_id := cart_id;
                    ci_product_id := pid; ci_quantity := qty; ci_price := pr |} in
      ({| tables := set_cart_items (cart_items (tables s) ++ [row]) (tables s);
          seqs := q |},
       inr tt)
  | None, _, _ => ({| tables := tables s; seqs := q |}, inl (not_null_violation "product_id"))
  | _, None, _ => ({| tables := tables s; seqs := q |}, inl (not_null_violation "quantity"))
  | _, _, None => ({| tables := tables s; seqs := q |}, inl (not_null_violation "price"))
  end.

(** [cart_id IN (SELECT id FROM shopping_carts WHERE user_id = $1)] *)
Definition in_cart_of (user : string) (t : Tables) (cart_id : Z) : bool :=
  existsb (fun sc => sc_id sc =? cart_id)%Z (carts_of user t).

(** [DELETE FROM cart_items WHERE id = $1 AND cart_id IN (SELECT id FROM
     shopping_carts WHERE user_id = $2)] *)
Definition delete_cart_item (itemId : Z) (user : string) (s : Store)
  : Store * (pg_error + unit) :=
  ({| tables :=
        set_cart_items
          (filter (fun ci => negb ((ci_id ci =? itemId)%Z
                                   && in_cart_of user (tables s) (ci_cart_id ci)))
                  (cart_items (tables s)))
          (tables s);
      seqs := seqs s |},
   inr tt).

(** The [ci] columns of [cart_items ci JOIN shopping_carts sc
     ON ci.cart_id = sc.id WHERE sc.user_id = $1]: one row per pair of a
    cart item and a cart of the user that it joins with. *)
Definition cart_rows (user : string) (t : Tables) : list cart_item :=
  flat_map
    (fun ci =>
       map (fun _ => ci)
           (filter (fun sc => (ci_cart_id ci =? sc_id sc)%Z) (carts_of user t)))
    (cart_items t).

Definition select_cart_items (user : string) (s : Store)
  : Store * (pg_error + list cart_item) :=
  (s, inr (cart_rows user (tables s))).

(** [INSERT INTO orders (user_id, status, total_amount, shipping_address)
     VALUES ($1, $2, $3, $4)], returning the row; [shipping_address] is
    NOT NULL. *)
Definition insert_order (user status : string) (total_amount : Z)
    (shipping_address : option string) (s : Store)
  : Store * (pg_error + list order) :=
  let q := next_orders_id (seqs s) in
  match shipping_address with
  | Some addr =>
      let row := {| o_id := orders_id_seq q; o_user_id := user; o_status := status;
                    o_total_amount := total_amount; o_shipping_address := addr |} in
      ({| tables := set_orders (orders (tables s) ++ [row]) (tables s); seqs := q |},
       inr [row])
  | None =>
      ({| tables := tables s; seqs := q |}, inl (not_null_violation "shipping_address"))
  end.

(** [INSERT INTO order_items (order_id, product_id, quantity, price)
     VALUES ($1, $2, $3, $4)] *)
Definition insert_order_item (order_id : Z) (product_id : string)
    (quantity price : Z) (s : Store) : Store * (pg_error + unit) :=
  let q := next_order_items_id (seqs s) in
  let row := {| oi_id := order_items_id_seq q; oi_order_id := order_id;
                oi_product_id := product_id; oi_quantity := quantity;
                oi_price := price |} in
  ({| tables := set_order_items (order_items (tables s) ++ [row]) (tables s); seqs := q |},
   inr tt).

(** [DELETE FROM cart_items WHERE cart_id IN (SELECT id FROM shopping_carts
     WHERE user_id = $1)] *)
Definition delete_cart_items (user : string) (s : Store) : Store * (pg_error + unit) :=
  ({| tables :=
        set_cart_items
          (filter (fun ci => negb (in_cart_of user (tables s) (ci_cart_id ci)))
                  (cart_items (tables s)))
          (tables s);
      seqs := seqs s |},
   inr tt).

(** [SELECT ... FROM orders WHERE id = $1 AND user_id = $2], all columns *)
Definition orders_with (order_id : Z) (user : string) (t : Tables) : list order :=
  filter (fun o => (o_id o =? order_id)%Z && (o_user_id o =? user)) (orders t).

Definition select_order (order_id : Z) (user : string) (s : Store)
  : Store * (pg_error + list order) :=
  (s, inr (orders_with order_id user (tables s))).

(** [INSERT INTO payments (order_id, amount, status, payment_method,
     transaction_id) VALUES ($1, $2, $3, $4, $5)]; [payment_method] is
    NOT NULL. *)
Definition insert_payment (order_id amount : Z) (status : string)
    (payment_method : option string) (transaction_id : string) (s : Store)
  : Store * (pg_error + unit) :=
  let q := next_payments_id (seqs s) in
  match payment_method with
  | Some pm =>
      let row := {| p_id := payments_id_seq q; p_order_id := order_id;
                    p_amount := amount; p_status := status;
                    p_payment_method := pm; p_transaction_id := transaction_id |} in
      ({| tables := set_payments (payments (tables s) ++ [row]) (tables s); seqs := q |},
       inr tt)
  | None =>
      ({| tables := tables s; seqs := q |}, inl (not_null_violation "payment_method"))
  end.

Definition with_status (status : string) (o : order) : order :=
  {| o_id := o_id o; o_user_id := o_user_id o; o_status := status;
     o_total_amount := o_total_amount o; o_shipping_address := o_shipping_address o |}.

(** [UPDATE orders SET status = $1, updated_at = CURRENT_TIMESTAMP
     WHERE id = $2] *)
Definition update_order_status (status : string) (order_id : Z) (s : Store)
  : Store * (pg_error + unit) :=
  ({| tables :=
        set_orders
          (map (fun o => if (o_id o =? order_id)%Z then with_status status o else o)
               (orders (tables s)))
          (tables s);
      seqs := seqs s |},
   inr tt).

(** The orders of the user, each with the [json_agg] of the [order_items]
    joined on [o.id = oi.order_id], [ORDER BY o.created_at DESC].  Rows
    are inserted in the order of their [created_at], so the most recent
    order is the last of the table.  (For an order without items the LEFT
    JOIN aggregates one null; here the list is empty.) *)
Definition select_orders (user : string) (s : Store)
  : Store * (pg_error + list (order * list order_item)) :=
  (s,
   inr (map (fun o =>
               (o, filter (fun oi => (oi_order_id oi =? o_id o)%Z) (order_items (tables s))))
            (rev (filter (fun o => o_user_id o =? user) (orders (tables s)))))).

(** ** The handlers *)

(** [req.body] of [POST /cart/add]; a field the client left out is [None]. *)
Record cart_add_body := {
  product_id : option string;
  quantity : option Z;
  price : option Z
}.

(** [req.body] of [POST /order/place] *)
Record order_place_body := {
  shipping_address : option string
}.

(** [req.body] of [POST /payment/process] *)
Record payment_process_body := {
  order_id : Z;
  payment_method : option string;
  token : option string
}.

(** [POST /cart/add] *)
Definition post_cart_add (user : string) (req_body : cart_add_body) : M response :=
  try_catch
    (BEGIN ;;
     cart <- query (select_shopping_carts user) ;;
     cart <- (if (List.length cart =? 0)%nat
              then query (insert_shopping_cart user)
              else ret cart) ;;
     match cart with
     | [] => throw (Error "Cannot read properties of undefined (reading 'id')")
     | row0 :: _ =>
         query (insert_cart_item (sc_id row0) (product_id req_body)
                                 (quantity req_body) (price req_body)) ;;
         COMMIT ;;
         ret {| status := 201; body := Message "Item added to cart" |}
     end)
    (fun error =>
       ROLLBACK ;;
       ret {| status := 400; body := Caught error |}).

(** [DELETE /cart/remove/:itemId] *)
Definition delete_cart_remove (user : string) (itemId : Z) : M response :=
  try_catch
    (query (delete_cart_item itemId user) ;;
     ret {| status := 200; body := Message "Item removed from cart" |})
    (fun error => ret {| status := 400; body := Caught error |}).

(** [GET /cart] *)
Definition get_cart (user : string) : M response :=
  try_catch
    (cart <- query (select_cart_items user) ;;
     ret {| status := 200; body := CartItemRows cart |})
    (fun error => ret {| status := 500; body := Caught error |}).

(** [cartItems.rows.reduce((sum, item) => sum + item.price * item.quantity, 0)] *)
Definition totalAmount (rows : list cart_item) : Z :=
  fold_left (fun sum item => sum + ci_price item * ci_quantity item) rows 0.

(** The loop "Create order items" of [POST /order/place]: one INSERT per
    loaded cart row. *)
Definition create_order_items (order_id : Z) (cartItems : list cart_item) : M unit :=
  for_of cartItems
    (fun item =>
       query (insert_order_item order_id (ci_product_id item)
                                (ci_quantity item) (ci_price item))).

(** [POST /order/place] *)
Definition post_order_place (user : string) (req_body : order_place_body) : M response :=
  try_catch
    (BEGIN ;;
     cartItems <- query (select_cart_items user) ;;
     (if (List.length cartItems =? 0)%nat then throw (Error "Cart is empty") else ret tt) ;;
     order <- query (insert_order user "pending" (totalAmount cartItems)
                                  (shipping_address req_body)) ;;
     match order with
     | [] => throw (Error "Cannot read properties of undefined (reading 'id')")
     | row0 :: _ =>
         create_order_items (o_id row0) cartItems ;;
         query (delete_cart_items user) ;;
         COMMIT ;;
         ret {| status := 201; body := OrderRow row0 |}
     end)
    (fun error =>
       ROLLBACK ;;
       ret {| status := 400; body := Caught error |}).

(** [await stripe.paymentIntents.create({...})] *)
Definition paymentIntents_create (charge : gateway) (p : stripe.params)
  : M stripe.paymentIntent :=
  fun c =>
    match charge p with
    | inl e => (Thrown (StripeError e), c)
    | inr intent => (Returned intent, c)
    end.

(** [POST /payment/process] *)
Definition post_payment_process (user : string) (req_body : payment_process_body)
    (charge : gateway) : M response :=
  try_catch
    (order <- query (select_order (order_id req_body) user) ;;
     match order with
     | [] => throw (Error "Order not found")
     | row0 :: _ =>
         paymentIntent <-
           paymentIntents_create charge
             {| stripe.amount := o_total_amount row0;
                stripe.currency := "usd";
                stripe.payment_method := token req_body;
                stripe.confirm := true |} ;;
         query (insert_payment (order_id req_body) (o_total_amount row0) "completed"
                               (payment_method req_body) (stripe.id paymentIntent)) ;;
         query (update_order_status "paid" (order_id req_body)) ;;
         ret {| status := 200; body := Message "Payment processed successfully" |}
     end)
    (fun error => ret {| status := 400; body := Caught error |}).

(** [GET /orders] *)
Definition get_orders (user : string) : M response :=
  try_catch
    (rows <- query (select_orders user) ;;
     ret {| status := 200; body := OrderRows rows |})
    (fun error => ret {| status := 500; body := Caught error |}).

(** ** The operations of the service, one request each *)

Definition AddItem (user : string) (req_body : cart_add_body) :=
  serve (post_cart_add user req_body).

Definition RemoveItem (user : string) (itemId : Z) :=
  serve (delete_cart_remove user itemId).

Definition GetCart (user : string) :=
  serve (get_cart user).

Definition PlaceOrder (user : string) (req_body : order_place_body) :=
  serve (post_order_place user req_body).

Definition ProcessPayment (user : string) (req_body : payment_process_body)
    (charge : gateway) :=
  serve (post_payment_process user req_body charge).

Definition ListOrders (user : string) :=
  serve (get_orders user).

(** A request to the service and the step it makes on the store. *)
Inductive call :=
| CartAdd (user : string) (req_body : cart_add_body)
| CartRemove (user : string) (itemId : Z)
| CartGet (user : string)
| OrderPlace (user : string) (req_body : order_place_body)
| PaymentProcess (user : string) (req_body : payment_process_body) (charge : gateway)
| OrdersGet (user : string).

Definition handle (c : call) : list bool -> Store -> Store * outcome response :=
  match c with
  | CartAdd user b => AddItem user b
  | CartRemove user itemId => RemoveItem user itemId
  | CartGet user => GetCart user
  | OrderPlace user b => PlaceOrder user b
  | PaymentProcess user b charge => ProcessPayment user b charge
  | OrdersGet user => ListOrders user
  end.

(** The stores the service can reach from [s0], whatever the requests, the
    faults of the store and the answers of the gateway. *)
Inductive reachable (s0 : Store) : Store -> Prop :=
| reach_start : reachable s0 s0
| reach_step s c faults :
    reachable s0 s -> reachable s0 (fst (handle c faults s)).

(** ** Test stores and gateway stubs *)

Definition empty_store : Store :=
  {| tables := {| shopping_carts := []; cart_items := []; orders := [];
                  order_items := []; payments := [] |};
     seqs := {| shopping_carts_id_seq := 0; cart_items_id_seq := 0; orders_id_seq := 0;
                order_items_id_seq := 0; payments_id_seq := 0 |} |}.

Definition stub_success : gateway :=
  fun _ => inr {| stripe.id := "pi_1" |}.



Definition line (pid : string) (qty pr : Z) : cart_add_body :=
  {| product_id := Some pid; quantity := Some qty; price := Some pr |}.

(** alice's cart of the scenario: productA, 2 at 20.00, and productB, 1 at 15.00. *)
Definition two_line_cart : Store :=
  fst (AddItem "alice" (line "productB" 1 1500) []
         (fst (AddItem "alice" (line "productA" 2 2000) [] empty_store))).

Definition placed : Store :=
  fst (PlaceOrder "alice" {| shipping_address := Some "{}" |} [] two_line_cart).

Definition pay_order_1 : payment_process_body :=
  {| order_id := 1; payment_method := Some "card"; token := Some "tok_visa" |}.

Definition paid_once : Store :=
  fst (ProcessPayment "alice" pay_order_1 stub_success [] placed).

Definition paid_twice : Store :=
  fst (ProcessPayment "alice" pay_order_1 stub_success [] paid_once).

(** ** Vocabulary of the properties *)


(** What an [order_items] row copies from a cart item, next to its order. *)
Definition oi_line (oi : order_item) : Z * string * Z * Z :=
  (oi_order_id oi, oi_product_id oi, oi_quantity oi, oi_price oi).

Definition ci_line (order_id : Z) (ci : cart_item) : Z * string * Z * Z :=
  (order_id, ci_product_id ci, ci_quantity ci, ci_price ci).

(** The rows the loop of [POST /order/place] appends to [order_items] for
    [rows] when the sequence of the table stands at [last]. *)
Fixpoint copies (last order_id : Z) (rows : list cart_item) : list order_item :=
  match rows with
  | [] => []
  | item :: rest =>
      {| oi_id := last + 1; oi_order_id := order_id;
         oi_product_id := ci_product_id item; oi_quantity := ci_quantity item;
         oi_price := ci_price item |}
      :: copies (last + 1) order_id rest
  end.

(** Everything of a client but the [order_items] table, its sequence and
    the faults still pending. *)
Definition same_but_order_items (c c' : Client) : Prop :=
  snapshot c' = snapshot c
  /\ shopping_carts (tables (db c')) = shopping_carts (tables (db c))
  /\ cart_items (tables (db c')) = cart_items (tables (db c))
  /\ orders (tables (db c')) = orders (tables (db c))
  /\ payments (tables (db c')) = payments (tables (db c)).

(** The Payment rows of an order that hold the success status. *)
Definition completed_payments (order_id : Z) (t : Tables) : list payment :=
  filter (fun p => (p_order_id p =? order_id)%Z && (p_status p =? "completed"))
         (payments t).

(** The charge [POST /payment/process] sends for the order row it loaded. *)
Definition charge_of (row0 : order) (req_body : payment_process_body) : stripe.params :=
  {| stripe.amount := o_total_amount row0;
     stripe.currency := "usd";
     stripe.payment_method := token req_body;
     stripe.confirm := true |}.

(** The Payment row [POST /payment/process] records for a charge. *)
Definition payment_record (s : Store) (row0 : order) (req_body : payment_process_body)
    (pm : string) (intent : stripe.paymentIntent) : payment :=
  {| p_id := payments_id_seq (seqs s) + 1;
     p_order_id := order_id req_body;
     p_amount := o_total_amount row0;
     p_status := "completed";
     p_payment_method := pm;
     p_transaction_id := stripe.id intent |}.




(** The [cart_items] row [POST /cart/add] inserts into cart [cart_id]. *)
Definition added_item (s : Store) (cart_id : Z) (pid : string) (qty pr : Z) : cart_item :=
  {| ci_id := cart_items_id_seq (seqs s) + 1; ci_cart_id := cart_id;
     ci_product_id := pid; ci_quantity := qty; ci_price := pr |}.

(** The [shopping_carts] row [POST /cart/add] inserts for a first item. *)
Definition created_cart (s : Store) (user : string) : shopping_cart :=
  {| sc_id := shopping_carts_id_seq (seqs s) + 1; sc_user_id := user |}.

(** ** The [auth] middleware and the routes *)

(** [s.replace(pattern, replacement)] with a string pattern: the first
    occurrence of the pattern is replaced, and only that one. *)
Definition js_replace (pattern replacement s : string) : string :=
  match index 0 pattern s with
  | Some n =>
      String.append (substring 0 n s)
        (String.append replacement
           (substring (n + String.length pattern)
                      (String.length s - (n + String.length pattern)) s))
  | None => s
  end.

(** What a route sends back: the answer of a middleware, or the answer of
    the handler. *)
Inductive reply :=
| Refused (status : Z) (error : string)
| Handled (r : outcome response).

(** The [auth] middleware.  [authorization] is [req.header('Authorization')],
    [None] when the request has no such header (calling [replace] on it
    throws).  [jwt_verify token] stands for [jwt.verify(token, JWT_SECRET)]
    followed by the read of [decoded._id]; it is [None] when [verify]
    throws.  [next] is the handler the route continues with. *)
Definition auth (jwt_verify : string -> option string) (authorization : option string)
    (next : string -> Store -> Store * reply) (s : Store) : Store * reply :=
  match authorization with
  | None => (s, Refused 401 "Please authenticate.")
  | Some header =>
      match jwt_verify (js_replace "Bearer " "" header) with
      | None => (s, Refused 401 "Please authenticate.")
      | Some id => next id s
      end
  end.

(** A route of the service: [app.METHOD(path, auth, handler)].  The request
    is a [call] that still waits for [req.user.id]. *)
Definition route (jwt_verify : string -> option string) (authorization : option string)
    (request : string -> call) (faults : list bool) (s : Store) : Store * reply :=
  auth jwt_verify authorization
       (fun id s => (fst (handle (request id) faults s),
                     Handled (snd (handle (request id) faults s))))
       s.

(** ** Vocabulary of the ledger: orders, their items, payments *)

(** What an order row keeps for life; [status] is the one column an UPDATE
    of the service writes. *)
Definition order_core (o : order) : Z * string * Z * string :=
  (o_id o, o_user_id o, o_total_amount o, o_shipping_address o).

(** [o'] is the row [o] at a later time. *)
Definition later_row (o o' : order) : Prop :=
  order_core o' = order_core o /\ (o_status o' = o_status o \/ o_status o' = "paid").





(** [UPDATE orders SET status = 'paid' WHERE id = order_id], on the rows. *)
Definition mark_paid (order_id : Z) (l : list order) : list order :=
  map (fun o => if (o_id o =? order_id)%Z then with_status "paid" o else o) l.

(** What one request can do to the ledger, whatever the handler, the
    faults of the store and the answer of the gateway. *)
Inductive ledger_step (s s' : Store) : Prop :=
| step_no_entry :
    orders (tables s') = orders (tables s) ->
    order_items (tables s') = order_items (tables s) ->
    payments (tables s') = payments (tables s) ->
    orders_id_seq (seqs s) <= orders_id_seq (seqs s') ->
    ledger_step s s'
| step_order (user addr : string) (rows : list cart_item) :
    orders (tables s')
    = orders (tables s)
      ++ [{| o_id := orders_id_seq (seqs s) + 1; o_user_id := user;
             o_status := "pending"; o_total_amount := totalAmount rows;
             o_shipping_address := addr |}] ->
    order_items (tables s')
    = order_items (tables s)
      ++ copies (order_items_id_seq (seqs s)) (orders_id_seq (seqs s) + 1) rows ->
    payments (tables s') = payments (tables s) ->
    orders_id_seq (seqs s') = orders_id_seq (seqs s) + 1 ->
    ledger_step s s'
| step_payment (p : payment) :
    p_status p = "completed" ->
    orders (tables s') = orders (tables s) ->
    order_items (tables s') = order_items (tables s) ->
    payments (tables s') = payments (tables s) ++ [p] ->
    orders_id_seq (seqs s') = orders_id_seq (seqs s) ->
    ledger_step s s'
| step_paid (p : payment) (order_id : Z) :
    p_status p = "completed" ->
    orders (tables s') = mark_paid order_id (orders (tables s)) ->
    order_items (tables s') = order_items (tables s) ->
    payments (tables s') = payments (tables s) ++ [p] ->
    orders_id_seq (seqs s') = orders_id_seq (seqs s) ->
    ledger_step s s'.

(** ** Running handler bodies *)

Lemma store_eta (s : Store) : {| tables := tables s; seqs := seqs s |} = s.
Proof. destruct s; reflexivity. Qed.



Ltac unfold_handlers :=
  unfold AddItem, RemoveItem, GetCart, PlaceOrder, ProcessPayment, ListOrders, serve,
    post_cart_add, delete_cart_remove, get_cart, post_order_place, post_payment_process,
    get_orders, try_catch, bind, BEGIN, COMMIT, ROLLBACK, query, draw_fault, ret, throw,
    paymentIntents_create.

Ltac cbn_client := cbn [fst snd db snapshot pending_faults tables seqs].

Ltac unchanged_400 :=
  left; split; [first [reflexivity | apply store_eta] | eexists; reflexivity].

(** Split the fault schedule on its next entry. *)
Ltac next_fault faults :=
  destruct faults as [| [|] faults]; cbn [hd tl pending_faults db snapshot fst snd].

(** C4.  When the cart query of the user returns no row (no cart, or a cart
    without items), [POST /order/place] answers 400 with the error 'Cart is
    empty' and leaves the store, sequences included, as it was; whatever the
    faults of the store the request writes nothing; and issuing the request
    again gives the same answer on the same store. *)
Theorem PlaceOrder_empty_cart (user : string) (req_body : order_place_body) (s : Store)
    (Hempty : cart_rows user (tables s) = []) :
  PlaceOrder user req_body [] s
    = (s, Returned {| status := 400; body := Caught (Error "Cart is empty") |})
  /\ (forall faults,
        fst (PlaceOrder user req_body faults s) = s
        /\ exists e, snd (PlaceOrder user req_body faults s)
                     = Returned {| status := 400; body := Caught e |})
  /\ PlaceOrder user req_body [] (fst (PlaceOrder user req_body [] s))
     = PlaceOrder user req_body [] s.
Proof.
  assert (Hrun : PlaceOrder user req_body [] s
                 = (s, Returned {| status := 400; body := Caught (Error "Cart is empty") |})).
  { unfold_handlers; cbn. unfold select_cart_items; cbn. rewrite Hempty; cbn.
    rewrite store_eta. reflexivity. }
  split; [exact Hrun|]. split.
  - intro faults. unfold_handlers.
    next_fault faults; [ | split; [reflexivity | eexists; reflexivity] | ].
    + unfold select_cart_items; cbn. rewrite Hempty; cbn. rewrite store_eta.
      split; [reflexivity | eexists; reflexivity].
    + next_fault faults.
      * unfold select_cart_items; cbn. rewrite Hempty; cbn. rewrite store_eta.
        split; [reflexivity | eexists; reflexivity].
      * cbn. rewrite store_eta. split; [reflexivity | eexists; reflexivity].
      * unfold select_cart_items; cbn. rewrite Hempty; cbn. rewrite store_eta.
        split; [reflexivity | eexists; reflexivity].
  - rewrite Hrun. cbn [fst]. exact Hrun.
Qed.

(** C4 on a user who has no cart. *)
Lemma PlaceOrder_empty_cart_witness :
  PlaceOrder "carol" {| shipping_address := Some "{}" |} [] two_line_cart
    = (two_line_cart, Returned {| status := 400; body := Caught (Error "Cart is empty") |})
  /\ (forall faults,
        fst (PlaceOrder "carol" {| shipping_address := Some "{}" |} faults two_line_cart)
        = two_line_cart
        /\ exists e, snd (PlaceOrder "carol" {| shipping_address := Some "{}" |} faults
                            two_line_cart)
                     = Returned {| status := 400; body := Caught e |})
  /\ PlaceOrder "carol" {| shipping_address := Some "{}" |} []
       (fst (PlaceOrder "carol" {| shipping_address := Some "{}" |} [] two_line_cart))
     = PlaceOrder "carol" {| shipping_address := Some "{}" |} [] two_line_cart.
Proof.
  apply (PlaceOrder_empty_cart "carol" {| shipping_address := Some "{}" |} two_line_cart).
  reflexivity.
Defined.

(** ** The loop of [POST /order/place] *)



Lemma copies_lines (last order_id : Z) (rows : list cart_item) :
  map oi_line (copies last order_id rows) = map (ci_line order_id) rows.
Proof.
  revert last. induction rows as [| item rest IH]; intro last; simpl.
  - reflexivity.
  - rewrite IH. reflexivity.
Qed.

Section OrderItemsLoop.

Variable order_id : Z.

Lemma same_but_order_items_trans (c1 c2 c3 : Client) :
  same_but_order_items c1 c2 -> same_but_order_items c2 c3 -> same_but_order_items c1 c3.
Proof.
  unfold same_but_order_items.
  intros (A1 & A2 & A3 & A4 & A5) (B1 & B2 & B3 & B4 & B5).
  repeat split; congruence.
Qed.

Lemma create_order_items_cons (item : cart_item) (rest : list cart_item) (c : Client) :
  create_order_items order_id (item :: rest) c
  = match create_order_items order_id [item] c with
    | (Returned _, c1) => create_order_items order_id rest c1
    | (Thrown e, c1) => (Thrown e, c1)
    end.
Proof.
  unfold create_order_items. cbn [for_of]. unfold bind.
  destruct (query _ c) as [[[] | e] c1]; reflexivity.
Qed.

Lemma create_order_items_one (item : cart_item) (c : Client) :
  same_but_order_items c (snd (create_order_items order_id [item] c))
  /\ (fst (create_order_items order_id [item] c) = Returned tt ->
      order_items (tables (db (snd (create_order_items order_id [item] c))))
        = order_items (tables (db c)) ++ copies (order_items_id_seq (seqs (db c))) order_id [item]
      /\ order_items_id_seq (seqs (db (snd (create_order_items order_id [item] c))))
         = order_items_id_seq (seqs (db c)) + 1)
  /\ (pending_faults c = [] ->
      fst (create_order_items order_id [item] c) = Returned tt
      /\ pending_faults (snd (create_order_items order_id [item] c)) = []).
Proof.
  unfold create_order_items, for_of, bind, ret, query, draw_fault.
  destruct (pending_faults c) as [| [|] rest] eqn:Hf; cbn;
    repeat split; try reflexivity; try discriminate.
Qed.

Lemma create_order_items_run (rows : list cart_item) :
  forall c : Client,
    same_but_order_items c (snd (create_order_items order_id rows c))
    /\ (fst (create_order_items order_id rows c) = Returned tt ->
        order_items (tables (db (snd (create_order_items order_id rows c))))
          = order_items (tables (db c))
            ++ copies (order_items_id_seq (seqs (db c))) order_id rows)
    /\ (pending_faults c = [] ->
        fst (create_order_items order_id rows c) = Returned tt
        /\ pending_faults (snd (create_order_items order_id rows c)) = []).
Proof.
  induction rows as [| item rest IH]; intro c.
  - cbn. rewrite app_nil_r. repeat split; auto.
  - destruct (create_order_items_one item c) as (Hframe & Hrows & Hnofault).
    rewrite create_order_items_cons.
    destruct (create_order_items order_id [item] c) as [[[] | e] c1] eqn:Hstep;
      cbn [fst snd] in *.
    + destruct (IH c1) as (IHframe & IHrows & IHnofault).
      destruct (Hrows eq_refl) as (Happ & Hseq).
      split; [eapply same_but_order_items_trans; eassumption |]. split.
      * intro Hret. rewrite (IHrows Hret), Happ, Hseq. cbn [copies].
        rewrite <- app_assoc. reflexivity.
      * intro Hnil. destruct (Hnofault Hnil) as (_ & Hnil1). exact (IHnofault Hnil1).
    + split; [exact Hframe |]. split.
      * discriminate.
      * intro Hnil. destruct (Hnofault Hnil) as (Habs & _). discriminate.
Qed.

End OrderItemsLoop.

Arguments create_order_items : simpl never.

(** ** Clearing the cart *)

Lemma no_cart_no_join (carts : list shopping_cart) (cart_id : Z) :
  existsb (fun sc => sc_id sc =? cart_id)%Z carts = false ->
  filter (fun sc => (cart_id =? sc_id sc)%Z) carts = [].
Proof.
  induction carts as [| sc rest IH]; simpl; intro H.
  - reflexivity.
  - apply orb_false_iff in H. destruct H as (Hsc & Hrest).
    rewrite Z.eqb_sym, Hsc. auto.
Qed.

Lemma cart_rows_set_cart_items (user : string) (t : Tables) (l : list cart_item) :
  cart_rows user (set_cart_items l t)
  = flat_map
      (fun ci => map (fun _ => ci)
                     (filter (fun sc => (ci_cart_id ci =? sc_id sc)%Z) (carts_of user t)))
      l.
Proof. reflexivity. Qed.

Lemma cart_rows_cleared (user : string) (t : Tables) :
  cart_rows user
    (set_cart_items
       (filter (fun ci => negb (in_cart_of user t (ci_cart_id ci))) (cart_items t)) t)
  = [].
Proof.
  rewrite cart_rows_set_cart_items.
  induction (cart_items t) as [| ci rest IH]; simpl.
  - reflexivity.
  - destruct (in_cart_of user t (ci_cart_id ci)) eqn:Hin; simpl.
    + exact IH.
    + unfold in_cart_of in Hin. rewrite (no_cart_no_join _ _ Hin). simpl. exact IH.
Qed.

(** ** Placing an order *)

Lemma tables_ext (t t' : Tables) :
  shopping_carts t = shopping_carts t' -> cart_items t = cart_items t' ->
  orders t = orders t' -> order_items t = order_items t' -> payments t = payments t' ->
  t = t'.
Proof. destruct t, t'; simpl; intros; subst; reflexivity. Qed.

Lemma in_cart_of_ext (user : string) (t t' : Tables) (cart_id : Z) :
  shopping_carts t = shopping_carts t' -> in_cart_of user t cart_id = in_cart_of user t' cart_id.
Proof. unfold in_cart_of, carts_of. intros ->. reflexivity. Qed.

(** Take the next entry of the fault schedule, whatever the rest is. *)
Ltac on_fault fs :=
  destruct (hd false fs);
  cbn [fst snd db snapshot pending_faults tables seqs].

(** The two outcomes of [POST /order/place], whatever the request and the
    faults of the store: nothing, or the whole order. *)
Lemma PlaceOrder_run (user : string) (req_body : order_place_body) (faults : list bool)
    (s : Store) :
  (tables (fst (PlaceOrder user req_body faults s)) = tables s
   /\ exists e, snd (PlaceOrder user req_body faults s)
                = Returned {| status := 400; body := Caught e |})
  \/ (exists addr,
        shipping_address req_body = Some addr
        /\ cart_rows user (tables s) <> []
        /\ snd (PlaceOrder user req_body faults s)
           = Returned {| status := 201;
                         body := OrderRow {| o_id := orders_id_seq (seqs s) + 1;
                                             o_user_id := user;
                                             o_status := "pending";
                                             o_total_amount := totalAmount (cart_rows user (tables s));
                                             o_shipping_address := addr |} |}
        /\ tables (fst (PlaceOrder user req_body faults s))
           = {| shopping_carts := shopping_carts (tables s);
                cart_items :=
                  filter (fun ci => negb (in_cart_of user (tables s) (ci_cart_id ci)))
                         (cart_items (tables s));
                orders :=
                  orders (tables s)
                  ++ [{| o_id := orders_id_seq (seqs s) + 1;
                         o_user_id := user;
                         o_status := "pending";
                         o_total_amount := totalAmount (cart_rows user (tables s));
                         o_shipping_address := addr |}];
                order_items :=
                  order_items (tables s)
                  ++ copies (order_items_id_seq (seqs s)) (orders_id_seq (seqs s) + 1)
                            (cart_rows user (tables s));
                payments := payments (tables s) |}).
Proof.
  unfold_handlers. cbn [fst snd db snapshot pending_faults].
  on_fault faults; [unchanged_400 |].
  on_fault (tl faults); [unchanged_400 |].
  unfold select_cart_items. cbn [fst snd db snapshot pending_faults tables seqs].
  destruct (List.length (cart_rows user (tables s)) =? 0)%nat eqn:Hlen;
    cbn [fst snd db snapshot pending_faults tables seqs]; [unchanged_400 |].
  assert (Hrows : cart_rows user (tables s) <> []).
  { intro Hnil. rewrite Hnil in Hlen. discriminate. }
  on_fault (tl (tl faults)); [unchanged_400 |].
  unfold insert_order. destruct (shipping_address req_body) as [addr |];
    cbn [fst snd db snapshot pending_faults tables seqs]; [| unchanged_400].
  match goal with
  | |- context [create_order_items ?oid ?rows ?c] =>
      destruct (create_order_items_run oid rows c) as (Hframe & Hret & _);
      destruct (create_order_items oid rows c) as [[[] | e] c1] eqn:Hloop
  end;
    destruct Hframe as (Hsnap & Hcarts & Hitems & Horders & Hpay);
    cbn [fst snd db snapshot pending_faults tables seqs set_orders
         shopping_carts cart_items orders order_items payments
         next_orders_id order_items_id_seq orders_id_seq] in *;
    [| rewrite Hsnap; unchanged_400 ].
  specialize (Hret eq_refl).
  on_fault (pending_faults c1); [rewrite Hsnap; unchanged_400 |].
  unfold delete_cart_items. cbn [fst snd db snapshot pending_faults tables seqs].
  on_fault (tl (pending_faults c1)); [rewrite Hsnap; unchanged_400 |].
  right. exists addr. repeat split; try assumption.
  apply tables_ext; cbn [set_cart_items shopping_carts cart_items orders order_items payments];
    try assumption.
  rewrite Hitems. apply filter_ext. intro ci.
  rewrite (in_cart_of_ext user _ (tables s) _ Hcarts). reflexivity.
Qed.

Lemma cart_rows_ext (user : string) (t t' : Tables) :
  shopping_carts t = shopping_carts t' -> cart_items t = cart_items t' ->
  cart_rows user t = cart_rows user t'.
Proof. unfold cart_rows, carts_of. intros -> ->. reflexivity. Qed.





(** *** Where a rejected statement sends the request *)

Lemma nth_tl (k : nat) (l : list bool) : nth (S k) l false = nth k (tl l) false.
Proof. destruct l; [destruct k |]; reflexivity. Qed.

Lemma hd_nth (l : list bool) : hd false l = nth 0 l false.
Proof. destruct l; reflexivity. Qed.

Lemma create_order_items_one_fault (order_id : Z) (item : cart_item) (c : Client) :
  fst (create_order_items order_id [item] c) = Returned tt ->
  hd false (pending_faults c) = false
  /\ pending_faults (snd (create_order_items order_id [item] c)) = tl (pending_faults c).
Proof.
  unfold create_order_items, for_of, bind, ret, query, draw_fault.
  destruct (hd false (pending_faults c)); cbn; intro H; [discriminate | split; reflexivity].
Qed.

Lemma create_order_items_faults (order_id : Z) (rows : list cart_item) :
  forall c : Client,
    fst (create_order_items order_id rows c) = Returned tt ->
    (forall i, (i < List.length rows)%nat -> nth i (pending_faults c) false = false)
    /\ forall i, nth i (pending_faults (snd (create_order_items order_id rows c))) false
                 = nth (List.length rows + i) (pending_faults c) false.
Proof.
  induction rows as [| item rest IH]; intros c Hret.
  - cbn. split; [intros i Hi; lia | reflexivity].
  - rewrite create_order_items_cons in *.
    pose proof (create_order_items_one_fault order_id item c) as Hone.
    destruct (create_order_items order_id [item] c) as [[[] | e] c1];
      cbn [fst snd] in *; [| discriminate].
    destruct (Hone eq_refl) as (Hhd & Htl).
    destruct (IH _ Hret) as (IHfalse & IHrest). rewrite Htl in *. split.
    + intros [| i] Hi; [rewrite <- hd_nth; exact Hhd |].
      rewrite nth_tl. apply IHfalse. cbn in Hi. lia.
    + intro i. rewrite IHrest. cbn [List.length plus]. rewrite nth_tl. reflexivity.
Qed.

(** [POST /order/place] issues [5 + n] statements for a cart of [n] rows:
    BEGIN, the SELECT, the INSERT of the order, [n] INSERTs of order items,
    the DELETE and COMMIT.  It answers 201 only if none is rejected. *)
Lemma PlaceOrder_201_no_fault (user : string) (req_body : order_place_body)
    (faults : list bool) (s : Store) (o : order) :
  snd (PlaceOrder user req_body faults s)
    = Returned {| status := 201; body := OrderRow o |} ->
  forall k, (k < 5 + List.length (cart_rows user (tables s)))%nat ->
            nth k faults false = false.
Proof.
  unfold_handlers. cbn [fst snd db snapshot pending_faults].
  destruct (hd false faults) eqn:H0; cbn_client; [discriminate |].
  destruct (hd false (tl faults)) eqn:H1; cbn_client; [discriminate |].
  unfold select_cart_items. cbn_client.
  destruct (List.length (cart_rows user (tables s)) =? 0)%nat; cbn_client; [discriminate |].
  destruct (hd false (tl (tl faults))) eqn:H2; cbn_client; [discriminate |].
  unfold insert_order. destruct (shipping_address req_body) as [addr |]; cbn_client;
    [| discriminate].
  match goal with
  | |- context [create_order_items ?oid ?rows ?c] =>
      pose proof (create_order_items_faults oid rows c) as Hloop;
      destruct (create_order_items oid rows c) as [[[] | e] c1]
  end; cbn_client; [| discriminate].
  cbn [fst snd pending_faults] in Hloop. destruct (Hloop eq_refl) as (Hitems & Hrest).
  destruct (hd false (pending_faults c1)) eqn:H3; cbn_client; [discriminate |].
  unfold delete_cart_items. cbn_client.
  destruct (hd false (tl (pending_faults c1))) eqn:H4; cbn_client; [discriminate |].
  intros _ k Hk.
  rewrite hd_nth in H0, H1, H2, H3, H4.
  rewrite <- nth_tl in H1, H4. rewrite <- !nth_tl in H2.
  rewrite Hrest in H3, H4.
  assert (Hshift : forall i, nth i (tl (tl (tl faults))) false = nth (3 + i) faults false).
  { intro i. cbn [plus]. rewrite !nth_tl. reflexivity. }
  rewrite Hshift in H3, H4.
  destruct (Nat.lt_ge_cases k 3) as [Hlow | Hhigh].
  - destruct k as [| [| [| k]]]; [assumption | assumption | assumption | lia].
  - destruct (Nat.lt_ge_cases (k - 3) (List.length (cart_rows user (tables s))))
      as [Hitem | Hlast].
    + specialize (Hitems (k - 3)%nat Hitem). rewrite Hshift in Hitems.
      replace (3 + (k - 3))%nat with k in Hitems by lia. exact Hitems.
    + assert (Hk' : k = (3 + (List.length (cart_rows user (tables s)) + 0))%nat
                    \/ k = (3 + (List.length (cart_rows user (tables s)) + 1))%nat) by lia.
      destruct Hk' as [-> | ->]; assumption.
Qed.

(** C2.  [POST /order/place] is all or nothing.  Whatever the request, the
    store and the statements the store rejects, the request ends in one of
    two ways: it answers 400 and every table holds the rows it held before
    (no order, no order item, no cart item deleted); or it answers 201 and
    the order row, one order item per loaded cart row and the deletion of
    the user's cart items are all in the store.  When the store rejects
    any of the statements of the request (BEGIN, the SELECT of the cart
    rows, the INSERT of the order, the INSERT of an order item, the DELETE
    of the cart items, COMMIT) the request ends the first way. *)
Theorem PlaceOrder_all_or_nothing (user : string) (req_body : order_place_body)
    (faults : list bool) (s : Store) :
  ((tables (fst (PlaceOrder user req_body faults s)) = tables s
    /\ exists e, snd (PlaceOrder user req_body faults s)
                 = Returned {| status := 400; body := Caught e |})
   \/ (exists (o : order) (new_items : list order_item),
         snd (PlaceOrder user req_body faults s)
           = Returned {| status := 201; body := OrderRow o |}
         /\ orders (tables (fst (PlaceOrder user req_body faults s)))
            = orders (tables s) ++ [o]
         /\ order_items (tables (fst (PlaceOrder user req_body faults s)))
            = order_items (tables s) ++ new_items
         /\ map oi_line new_items = map (ci_line (o_id o)) (cart_rows user (tables s))
         /\ cart_items (tables (fst (PlaceOrder user req_body faults s)))
            = filter (fun ci => negb (in_cart_of user (tables s) (ci_cart_id ci)))
                     (cart_items (tables s))
         /\ cart_rows user (tables (fst (PlaceOrder user req_body faults s))) = []))
  /\ (forall k,
        (k < 5 + List.length (cart_rows user (tables s)))%nat ->
        nth k faults false = true ->
        tables (fst (PlaceOrder user req_body faults s)) = tables s
        /\ exists e, snd (PlaceOrder user req_body faults s)
                     = Returned {| status := 400; body := Caught e |}).
Proof.
  destruct (PlaceOrder_run user req_body faults s)
    as [H400 | (addr & _ & _ & Hresp & Htables)].
  - split; [left; exact H400 | intros; exact H400].
  - split.
    + right. eexists. eexists. split; [exact Hresp |].
      rewrite Htables. cbn [shopping_carts cart_items orders order_items payments o_id].
      repeat split.
      * apply copies_lines.
      * erewrite cart_rows_ext; [apply (cart_rows_cleared user (tables s)) | |];
          reflexivity.
    + intros k Hk Hfault.
      rewrite (PlaceOrder_201_no_fault user req_body faults s _ Hresp k Hk) in Hfault.
      discriminate.
Qed.

(** C2 on the cart of the scenario, the store rejecting the DELETE that
    clears the cart (the sixth statement). *)
Lemma PlaceOrder_all_or_nothing_witness :
  tables (fst (PlaceOrder "alice" {| shipping_address := Some "{}" |}
                 [false; false; false; false; false; true] two_line_cart))
  = tables two_line_cart
  /\ exists e, snd (PlaceOrder "alice" {| shipping_address := Some "{}" |}
                      [false; false; false; false; false; true] two_line_cart)
               = Returned {| status := 400; body := Caught e |}.
Proof.
  apply (proj2 (PlaceOrder_all_or_nothing "alice" {| shipping_address := Some "{}" |}
                  [false; false; false; false; false; true] two_line_cart) 5%nat).
  - vm_compute. lia.
  - reflexivity.
Defined.

(** ** Processing a payment *)


(** The outcomes of [POST /payment/process], whatever the request, the
    answer of the gateway and the faults of the store. *)
Lemma ProcessPayment_run (user : string) (req_body : payment_process_body)
    (charge : gateway) (faults : list bool) (s : Store) :
  (* nothing written *)
  (fst (ProcessPayment user req_body charge faults s) = s
   /\ exists e, snd (ProcessPayment user req_body charge faults s)
                = Returned {| status := 400; body := Caught e |})
  \/ (exists row0 rest intent,
        orders_with (order_id req_body) user (tables s) = row0 :: rest
        /\ charge (charge_of row0 req_body) = inr intent
        /\ ((* charged, but the Payment row is refused *)
            (payment_method req_body = None
             /\ tables (fst (ProcessPayment user req_body charge faults s)) = tables s
             /\ snd (ProcessPayment user req_body charge faults s)
                = Returned {| status := 400;
                              body := Caught (DatabaseError
                                                (not_null_violation "payment_method")) |})
            \/ exists pm,
                payment_method req_body = Some pm
                /\ ((* Payment row written, status update rejected *)
                    (tables (fst (ProcessPayment user req_body charge faults s))
                     = set_payments
                         (payments (tables s) ++ [payment_record s row0 req_body pm intent])
                         (tables s)
                     /\ snd (ProcessPayment user req_body charge faults s)
                        = Returned {| status := 400;
                                      body := Caught (DatabaseError statement_rejected) |})
                    \/ (* both writes *)
                    (tables (fst (ProcessPayment user req_body charge faults s))
                     = set_orders
                         (map (fun o => if (o_id o =? order_id req_body)%Z
                                        then with_status "paid" o else o)
                              (orders (tables s)))
                         (set_payments
                            (payments (tables s) ++ [payment_record s row0 req_body pm intent])
                            (tables s))
                     /\ snd (ProcessPayment user req_body charge faults s)
                        = Returned {| status := 200;
                                      body := Message "Payment processed successfully" |})))).
Proof.
  unfold_handlers. cbn_client.
  on_fault faults; [unchanged_400 |].
  unfold select_order. cbn_client.
  destruct (orders_with (order_id req_body) user (tables s)) as [| row0 rest] eqn:Hsel;
    cbn_client; [unchanged_400 |].
  fold (charge_of row0 req_body).
  destruct (charge (charge_of row0 req_body)) as [e | intent] eqn:Hcharge; cbn_client;
    [unchanged_400 |].
  on_fault (tl faults); [unchanged_400 |].
  right. exists row0, rest, intent. split; [reflexivity |]. split; [exact Hcharge |].
  unfold insert_payment.
  destruct (payment_method req_body) as [pm |]; cbn_client;
    [| left; repeat split; reflexivity].
  right. exists pm. split; [reflexivity |].
  on_fault (tl (tl faults)); [left; split; reflexivity |].
  right. split; reflexivity.
Qed.



Lemma paid_after_update (order_id : Z) (l : list order) (o : order) :
  In o (map (fun o => if (o_id o =? order_id)%Z then with_status "paid" o else o) l) ->
  o_id o = order_id -> o_status o = "paid".
Proof.
  intros Hin Hid. apply in_map_iff in Hin. destruct Hin as (o0 & Ho & _).
  destruct (o_id o0 =? order_id)%Z eqn:Heq; subst o.
  - reflexivity.
  - apply Z.eqb_neq in Heq. contradiction.
Qed.

Lemma loaded_order_updated (order_id : Z) (user : string) (t : Tables)
    (row0 : order) (rest : list order) :
  orders_with order_id user t = row0 :: rest ->
  In (with_status "paid" row0)
     (map (fun o => if (o_id o =? order_id)%Z then with_status "paid" o else o) (orders t))
  /\ o_id row0 = order_id /\ o_user_id row0 = user.
Proof.
  intro Hsel.
  assert (Hin : In row0 (orders_with order_id user t)) by (rewrite Hsel; left; reflexivity).
  unfold orders_with in Hin. apply filter_In in Hin. destruct Hin as (Hin & Hmatch).
  apply andb_true_iff in Hmatch. destruct Hmatch as (Hid & Huser).
  split; [| split; [apply Z.eqb_eq; exact Hid | apply String.eqb_eq; exact Huser]].
  apply in_map_iff. exists row0. rewrite Hid. split; [reflexivity | exact Hin].
Qed.

Lemma completed_payments_recorded (s : Store) (row0 : order)
    (req_body : payment_process_body) (pm : string) (intent : stripe.paymentIntent)
    (l : list order) :
  completed_payments (order_id req_body)
    (set_orders l
       (set_payments (payments (tables s) ++ [payment_record s row0 req_body pm intent])
                     (tables s)))
  = completed_payments (order_id req_body) (tables s)
    ++ [payment_record s row0 req_body pm intent].
Proof.
  unfold completed_payments. cbn [set_orders set_payments payments].
  rewrite filter_app. cbn. rewrite Z.eqb_refl. reflexivity.
Qed.

(** C3, as the code has it.  After a [POST /payment/process] that answers
    200, the order of the request belongs to the caller, every order row
    with that id has status 'paid', and the order has one more 'completed'
    Payment row than before the request: exactly one when it had none.  The
    handler does not look at the status of the order, so a further
    successful request adds a further 'completed' row. *)
Theorem ProcessPayment_success (user : string) (req_body : payment_process_body)
    (charge : gateway) (faults : list bool) (s : Store) (resp : response)
    (Hresp : snd (ProcessPayment user req_body charge faults s) = Returned resp)
    (H200 : status resp = 200) :
  (exists o, In o (orders (tables (fst (ProcessPayment user req_body charge faults s))))
             /\ o_id o = order_id req_body /\ o_user_id o = user)
  /\ (forall o, In o (orders (tables (fst (ProcessPayment user req_body charge faults s)))) ->
                o_id o = order_id req_body -> o_status o = "paid")
  /\ List.length (completed_payments (order_id req_body)
                    (tables (fst (ProcessPayment user req_body charge faults s))))
     = S (List.length (completed_payments (order_id req_body) (tables s)))
  /\ (completed_payments (order_id req_body) (tables s) = [] ->
      exists p, completed_payments (order_id req_body)
                  (tables (fst (ProcessPayment user req_body charge faults s))) = [p]).
Proof.
  destruct (ProcessPayment_run user req_body charge faults s)
    as [(_ & e & H400)
       | (row0 & rest & intent & Hsel & Hcharge
          & [(_ & _ & H400) | (pm & Hpm & [(_ & H400) | (Htables & _)])])];
    try (rewrite H400 in Hresp; injection Hresp as <-; discriminate H200).
  rewrite Htables. cbn [set_orders orders].
  destruct (loaded_order_updated _ _ _ _ _ Hsel) as (Hin & Hid & Huser).
  split; [exists (with_status "paid" row0); repeat split; assumption |].
  split; [intros o Ho Hoid; exact (paid_after_update _ _ _ Ho Hoid) |].
  rewrite completed_payments_recorded. split.
  - rewrite length_app. cbn. lia.
  - intros ->. eexists. reflexivity.
Qed.

(** C3 on the order of the scenario. *)
Lemma ProcessPayment_success_witness :
  (exists o, In o (orders (tables paid_once)) /\ o_id o = 1 /\ o_user_id o = "alice")
  /\ (forall o, In o (orders (tables paid_once)) -> o_id o = 1 -> o_status o = "paid")
  /\ List.length (completed_payments 1 (tables paid_once))
     = S (List.length (completed_payments 1 (tables placed)))
  /\ (completed_payments 1 (tables placed) = [] ->
      exists p, completed_payments 1 (tables paid_once) = [p]).
Proof.
  apply (ProcessPayment_success "alice" pay_order_1 stub_success [] placed
           {| status := 200; body := Message "Payment processed successfully" |}).
  - vm_compute. reflexivity.
  - reflexivity.
Defined.

(** C3 as stated fails: two successful payment requests on the same order
    leave it with two 'completed' Payment rows. *)
Lemma ProcessPayment_twice_two_completed_rows :
  snd (ProcessPayment "alice" pay_order_1 stub_success [] placed)
    = Returned {| status := 200; body := Message "Payment processed successfully" |}
  /\ snd (ProcessPayment "alice" pay_order_1 stub_success [] paid_once)
     = Returned {| status := 200; body := Message "Payment processed successfully" |}
  /\ map p_status (completed_payments 1 (tables paid_twice)) = ["completed"; "completed"]
  /\ map p_id (completed_payments 1 (tables paid_twice)) = [1; 2].
Proof. vm_compute. repeat split; reflexivity. Qed.








(** ** The cart *)






(** The outcomes of [POST /cart/add], whatever the request and the faults
    of the store: nothing; or the item in the first cart of the user; or,
    for a user without a cart, a new cart and the item in it. *)
Lemma AddItem_run (user : string) (req_body : cart_add_body) (faults : list bool)
    (s : Store) :
  (tables (fst (AddItem user req_body faults s)) = tables s
   /\ exists e, snd (AddItem user req_body faults s)
                = Returned {| status := 400; body := Caught e |})
  \/ (exists pid qty pr,
        product_id req_body = Some pid /\ quantity req_body = Some qty
        /\ price req_body = Some pr
        /\ snd (AddItem user req_body faults s)
           = Returned {| status := 201; body := Message "Item added to cart" |}
        /\ ((exists row0 rest,
               carts_of user (tables s) = row0 :: rest
               /\ tables (fst (AddItem user req_body faults s))
                  = set_cart_items
                      (cart_items (tables s) ++ [added_item s (sc_id row0) pid qty pr])
                      (tables s))
            \/ (carts_of user (tables s) = []
                /\ tables (fst (AddItem user req_body faults s))
                   = set_cart_items
                       (cart_items (tables s)
                        ++ [added_item s (sc_id (created_cart s user)) pid qty pr])
                       (set_shopping_carts
                          (shopping_carts (tables s) ++ [created_cart s user])
                          (tables s))))).
Proof.
  unfold_handlers. cbn_client.
  on_fault faults; [unchanged_400 |].
  on_fault (tl faults); [unchanged_400 |].
  unfold select_shopping_carts. cbn_client.
  destruct (carts_of user (tables s)) as [| row0 rest] eqn:Hcarts;
    cbn [List.length Nat.eqb]; cbn_client.
  - (* no cart yet *)
    on_fault (tl (tl faults)); [unchanged_400 |].
    unfold insert_shopping_cart. cbn_client.
    on_fault (tl (tl (tl faults))); [unchanged_400 |].
    unfold insert_cart_item.
    destruct (product_id req_body) as [pid |]; [| cbn_client; unchanged_400].
    destruct (quantity req_body) as [qty |]; [| cbn_client; unchanged_400].
    destruct (price req_body) as [pr |]; [| cbn_client; unchanged_400].
    cbn_client.
    on_fault (tl (tl (tl (tl faults)))); [unchanged_400 |].
    right. exists pid, qty, pr. repeat split. right. split; reflexivity.
  - (* the first cart of the user *)
    cbn_client.
    on_fault (tl (tl faults)); [unchanged_400 |].
    unfold insert_cart_item.
    destruct (product_id req_body) as [pid |]; [| cbn_client; unchanged_400].
    destruct (quantity req_body) as [qty |]; [| cbn_client; unchanged_400].
    destruct (price req_body) as [pr |]; [| cbn_client; unchanged_400].
    cbn_client.
    on_fault (tl (tl (tl faults))); [unchanged_400 |].
    right. exists pid, qty, pr. repeat split. left. exists row0, rest. split; reflexivity.
Qed.






(** ** One cart per user *)





Lemma GetCart_store (user : string) (faults : list bool) (s : Store) :
  fst (GetCart user faults s) = s.
Proof.
  unfold_handlers. cbn_client. on_fault faults; [reflexivity |].
  unfold select_cart_items. cbn_client. reflexivity.
Qed.

Lemma ListOrders_store (user : string) (faults : list bool) (s : Store) :
  fst (ListOrders user faults s) = s.
Proof.
  unfold_handlers. cbn_client. on_fault faults; [reflexivity |].
  unfold select_orders. cbn_client. reflexivity.
Qed.







(** ** The scenario of the checkout flow, run *)

Example scenario_order_total :
  PlaceOrder "alice" {| shipping_address := Some "{}" |} [] two_line_cart
  = (placed,
     Returned {| status := 201;
                 body := OrderRow {| o_id := 1; o_user_id := "alice"; o_status := "pending";
                                     o_total_amount := 5500;
                                     o_shipping_address := "{}" |} |})
  /\ map oi_line (order_items (tables placed))
     = [(1, "productA", 2, 2000); (1, "productB", 1, 1500)]
  /\ cart_items (tables placed) = [].
Proof. vm_compute. repeat split; reflexivity. Qed.

Example scenario_payment :
  orders (tables paid_once)
  = [{| o_id := 1; o_user_id := "alice"; o_status := "paid"; o_total_amount := 5500;
        o_shipping_address := "{}" |}]
  /\ payments (tables paid_once)
     = [{| p_id := 1; p_order_id := 1; p_amount := 5500; p_status := "completed";
           p_payment_method := "card"; p_transaction_id := "pi_1" |}].
Proof. vm_compute. split; reflexivity. Qed.

Example scenario_rejected_statements :
  forall k, In k [0; 1; 2; 3; 4; 5; 6]%nat ->
    PlaceOrder "alice" {| shipping_address := Some "{}" |}
      (repeat false k ++ [true]) two_line_cart
    = ({| tables := tables two_line_cart;
          seqs := seqs (fst (PlaceOrder "alice" {| shipping_address := Some "{}" |}
                               (repeat false k ++ [true]) two_line_cart)) |},
       Returned {| status := 400; body := Caught (DatabaseError statement_rejected) |}).
Proof.
  intros k Hk. cbn in Hk.
  repeat (destruct Hk as [<- | Hk]; [vm_compute; reflexivity |]).
  contradiction.
Qed.

(** ** The ledger: what a request can do to orders, items and payments *)

Lemma create_order_items_orders_seq (order_id : Z) (rows : list cart_item) :
  forall c : Client,
    orders_id_seq (seqs (db (snd (create_order_items order_id rows c))))
    = orders_id_seq (seqs (db c)).
Proof.
  induction rows as [| item rest IH]; intro c.
  - reflexivity.
  - rewrite create_order_items_cons.
    assert (Hone : orders_id_seq (seqs (db (snd (create_order_items order_id [item] c))))
                   = orders_id_seq (seqs (db c))).
    { unfold create_order_items, for_of, bind, ret, query, draw_fault.
      destruct (hd false (pending_faults c)); reflexivity. }
    destruct (create_order_items order_id [item] c) as [[[] | e] c1]; cbn [fst snd] in *.
    + rewrite IH. exact Hone.
    + exact Hone.
Qed.

Lemma PlaceOrder_orders_seq (user : string) (req_body : order_place_body)
    (faults : list bool) (s : Store) :
  orders_id_seq (seqs s) <= orders_id_seq (seqs (fst (PlaceOrder user req_body faults s)))
  /\ (forall o, snd (PlaceOrder user req_body faults s)
                = Returned {| status := 201; body := OrderRow o |} ->
                orders_id_seq (seqs (fst (PlaceOrder user req_body faults s)))
                = orders_id_seq (seqs s) + 1).
Proof.
  unfold_handlers. cbn [fst snd db snapshot pending_faults].
  on_fault faults; [split; [lia | discriminate] |].
  on_fault (tl faults); [split; [lia | discriminate] |].
  unfold select_cart_items. cbn_client.
  destruct (List.length (cart_rows user (tables s)) =? 0)%nat; cbn_client;
    [split; [lia | discriminate] |].
  on_fault (tl (tl faults)); [split; [lia | discriminate] |].
  unfold insert_order. destruct (shipping_address req_body) as [addr |]; cbn_client;
    [| split; [cbn; lia | discriminate]].
  match goal with
  | |- context [create_order_items ?oid ?rows ?c] =>
      pose proof (create_order_items_orders_seq oid rows c) as Hseq;
      destruct (create_order_items_run oid rows c) as ((Hsnap & _) & _ & _);
      destruct (create_order_items oid rows c) as [[[] | e] c1]
  end; cbn [fst snd db snapshot seqs next_orders_id orders_id_seq] in *;
    [| rewrite Hsnap; cbn_client; rewrite Hseq; split; [lia | discriminate]].
  on_fault (pending_faults c1);
    [rewrite Hsnap; cbn_client; rewrite Hseq; split; [lia | discriminate] |].
  unfold delete_cart_items. cbn_client.
  on_fault (tl (pending_faults c1));
    [rewrite Hsnap; cbn_client; rewrite Hseq; split; [lia | discriminate] |].
  rewrite Hseq. split; [lia | reflexivity].
Qed.

Lemma AddItem_orders_seq (user : string) (req_body : cart_add_body) (faults : list bool)
    (s : Store) :
  orders_id_seq (seqs (fst (AddItem user req_body faults s))) = orders_id_seq (seqs s).
Proof.
  unfold_handlers. cbn_client.
  on_fault faults; [reflexivity |].
  on_fault (tl faults); [reflexivity |].
  unfold select_shopping_carts. cbn_client.
  destruct (carts_of user (tables s)) as [| row0 rest];
    cbn [List.length Nat.eqb]; cbn_client.
  - on_fault (tl (tl faults)); [reflexivity |].
    unfold insert_shopping_cart. cbn_client.
    on_fault (tl (tl (tl faults))); [reflexivity |].
    unfold insert_cart_item.
    destruct (product_id req_body), (quantity req_body), (price req_body); cbn_client;
      try reflexivity.
    on_fault (tl (tl (tl (tl faults)))); reflexivity.
  - on_fault (tl (tl faults)); [reflexivity |].
    unfold insert_cart_item.
    destruct (product_id req_body), (quantity req_body), (price req_body); cbn_client;
      try reflexivity.
    on_fault (tl (tl (tl faults))); reflexivity.
Qed.

Lemma ProcessPayment_orders_seq (user : string) (req_body : payment_process_body)
    (charge : gateway) (faults : list bool) (s : Store) :
  orders_id_seq (seqs (fst (ProcessPayment user req_body charge faults s)))
  = orders_id_seq (seqs s).
Proof.
  unfold_handlers. cbn_client.
  on_fault faults; [reflexivity |].
  unfold select_order. cbn_client.
  destruct (orders_with (order_id req_body) user (tables s)) as [| row0 rest];
    cbn_client; [reflexivity |].
  destruct (charge _) as [e | intent]; cbn_client; [reflexivity |].
  on_fault (tl faults); [reflexivity |].
  unfold insert_payment. destruct (payment_method req_body); cbn_client; [| reflexivity].
  on_fault (tl (tl faults)); reflexivity.
Qed.

Lemma RemoveItem_ledger (user : string) (itemId : Z) (faults : list bool) (s : Store) :
  orders (tables (fst (RemoveItem user itemId faults s))) = orders (tables s)
  /\ order_items (tables (fst (RemoveItem user itemId faults s))) = order_items (tables s)
  /\ payments (tables (fst (RemoveItem user itemId faults s))) = payments (tables s)
  /\ seqs (fst (RemoveItem user itemId faults s)) = seqs s.
Proof. unfold_handlers. cbn_client. on_fault faults; repeat split. Qed.

Lemma handle_ledger_step (c : call) (faults : list bool) (s : Store) :
  ledger_step s (fst (handle c faults s)).
Proof.
  destruct c as [user b | user itemId | user | user b | user b charge | user];
    cbn [handle].
  - pose proof (AddItem_orders_seq user b faults s) as Hseq.
    destruct (AddItem_run user b faults s)
      as [(Htables & _)
         | (pid & qty & pr & _ & _ & _ & _
            & [(row0 & rest & _ & Htables) | (_ & Htables)])];
      apply step_no_entry; rewrite ?Htables, ?Hseq; try reflexivity; lia.
  - destruct (RemoveItem_ledger user itemId faults s) as (Ho & Hoi & Hp & Hseq).
    apply step_no_entry; try assumption. rewrite Hseq. lia.
  - rewrite GetCart_store. apply step_no_entry; try reflexivity; lia.
  - destruct (PlaceOrder_orders_seq user b faults s) as (Hle & Hnext).
    destruct (PlaceOrder_run user b faults s)
      as [(Htables & _) | (addr & _ & _ & Hresp & Htables)].
    + apply step_no_entry; rewrite ?Htables; try reflexivity; exact Hle.
    + apply (step_order _ _ user addr (cart_rows user (tables s)));
        rewrite ?Htables; try reflexivity. exact (Hnext _ Hresp).
  - pose proof (ProcessPayment_orders_seq user b charge faults s) as Hseq.
    destruct (ProcessPayment_run user b charge faults s)
      as [(Hstore & _)
         | (row0 & rest & intent & _ & _
            & [(_ & Htables & _) | (pm & _ & [(Htables & _) | (Htables & _)])])].
    + rewrite Hstore. apply step_no_entry; try reflexivity; lia.
    + apply step_no_entry; rewrite ?Htables, ?Hseq; try reflexivity; lia.
    + apply (step_payment _ _ (payment_record s row0 b pm intent));
        rewrite ?Htables, ?Hseq; reflexivity.
    + apply (step_paid _ _ (payment_record s row0 b pm intent) (order_id b));
        rewrite ?Htables, ?Hseq; reflexivity.
  - rewrite ListOrders_store. apply step_no_entry; try reflexivity; lia.
Qed.

Lemma later_row_refl (o : order) : later_row o o.
Proof. split; [reflexivity | left; reflexivity]. Qed.

Lemma later_rows_refl (l : list order) : Forall2 later_row l l.
Proof. induction l; constructor; [apply later_row_refl | assumption]. Qed.

Lemma later_rows_mark_paid (order_id : Z) (l l' : list order) :
  Forall2 later_row l l' -> Forall2 later_row l (mark_paid order_id l').
Proof.
  induction 1 as [| o o' l l' (Hcore & Hstatus) _ IH]; cbn; constructor; [| exact IH].
  destruct (o_id o' =? order_id)%Z.
  - split; [exact Hcore | right; reflexivity].
  - split; assumption.
Qed.

(** X1.  Orders, order items and payments are a ledger.  Whatever requests
    the service has served, whatever the store rejected and the gateway
    answered: every order row that was in the store is still there, in
    place, with its id, user, total and address, and with its former
    status or 'paid'; every order item and every payment that was in the
    store is still there, unchanged; rows are only ever added after them. *)
Theorem ledger_append_only (s0 s : Store) (Hreach : reachable s0 s) :
  exists (old new_orders : list order) (new_items : list order_item)
         (new_payments : list payment),
    orders (tables s) = old ++ new_orders
    /\ Forall2 later_row (orders (tables s0)) old
    /\ order_items (tables s) = order_items (tables s0) ++ new_items
    /\ payments (tables s) = payments (tables s0) ++ new_payments.
Proof.
  induction Hreach as [| s c faults _ (old & new_o & new_oi & new_p & Ho & Hold & Hoi & Hp)].
  - exists (orders (tables s0)), [], [], []. rewrite !app_nil_r.
    repeat split. apply later_rows_refl.
  - destruct (handle_ledger_step c faults s)
      as [Eo Eoi Ep _ | user addr rows Eo Eoi Ep _ | p _ Eo Eoi Ep _ | p oid _ Eo Eoi Ep _];
      rewrite Eo, Eoi, Ep, ?Ho, ?Hoi, ?Hp.
    + exists old, new_o, new_oi, new_p. repeat split; assumption.
    + eexists old, (new_o ++ [_]), (new_oi ++ _), new_p.
      rewrite <- !app_assoc. repeat split; assumption.
    + exists old, new_o, new_oi, (new_p ++ [p]).
      rewrite <- !app_assoc. repeat split; assumption.
    + exists (mark_paid oid old), (mark_paid oid new_o), new_oi, (new_p ++ [p]).
      unfold mark_paid at 1. rewrite map_app, <- !app_assoc.
      repeat split. apply later_rows_mark_paid. exact Hold.
Qed.

(** X1 on the scenario: the placed order, then a payment request. *)
Lemma ledger_append_only_witness :
  exists (old new_orders : list order) (new_items : list order_item)
         (new_payments : list payment),
    orders (tables (fst (handle (PaymentProcess "alice" pay_order_1 stub_success) []
                           placed)))
    = old ++ new_orders
    /\ Forall2 later_row (orders (tables placed)) old
    /\ order_items (tables (fst (handle (PaymentProcess "alice" pay_order_1 stub_success) []
                                   placed)))
       = order_items (tables placed) ++ new_items
    /\ payments (tables (fst (handle (PaymentProcess "alice" pay_order_1 stub_success) []
                                placed)))
       = payments (tables placed) ++ new_payments.
Proof.
  exact (ledger_append_only placed _
           (reach_step placed placed (PaymentProcess "alice" pay_order_1 stub_success) []
              (reach_start placed))).
Defined.




(** *** The total of an order and its items *)

Lemma filter_none {A} (f : A -> bool) (l : list A) :
  (forall x, In x l -> f x = false) -> filter f l = [].
Proof.
  induction l as [| x rest IH]; simpl; intro H.
  - reflexivity.
  - rewrite (H x (or_introl eq_refl)). apply IH. intros y Hy. apply H. right. exact Hy.
Qed.








(** ** More on [POST /payment/process] *)



(** X5.  For an order of the caller, [POST /payment/process] asks the
    gateway for one charge: the stored total of the first order row the
    query returned, in 'usd', with the token of the request and
    [confirm: true].  The outcome of the request depends on the gateway
    through its answer to that charge only; and when the request answers
    200 the Payment row it recorded carries the order id of the request,
    that same total and the transaction id the gateway returned. *)
Theorem ProcessPayment_charges_stored_total (user : string)
    (req_body : payment_process_body) (charge : gateway) (faults : list bool) (s : Store)
    (row0 : order) (rest : list order)
    (Hsel : orders_with (order_id req_body) user (tables s) = row0 :: rest) :
  (forall charge' : gateway,
      charge' {| stripe.amount := o_total_amount row0; stripe.currency := "usd";
                 stripe.payment_method := token req_body; stripe.confirm := true |}
      = charge {| stripe.amount := o_total_amount row0; stripe.currency := "usd";
                  stripe.payment_method := token req_body; stripe.confirm := true |} ->
      ProcessPayment user req_body charge' faults s
      = ProcessPayment user req_body charge faults s)
  /\ (snd (ProcessPayment user req_body charge faults s)
      = Returned {| status := 200; body := Message "Payment processed successfully" |} ->
      exists p intent,
        charge {| stripe.amount := o_total_amount row0; stripe.currency := "usd";
                  stripe.payment_method := token req_body; stripe.confirm := true |}
        = inr intent
        /\ payments (tables (fst (ProcessPayment user req_body charge faults s)))
           = payments (tables s) ++ [p]
        /\ p_order_id p = order_id req_body
        /\ p_amount p = o_total_amount row0
        /\ p_status p = "completed"
        /\ p_transaction_id p = stripe.id intent).
Proof.
  split.
  - intros charge' Hsame. unfold_handlers. cbn_client. on_fault faults; [reflexivity |].
    unfold select_order. cbn_client. rewrite Hsel. cbn_client. rewrite Hsame. reflexivity.
  - intro H200.
    destruct (ProcessPayment_run user req_body charge faults s)
      as [(_ & e & H400)
         | (row1 & rest1 & intent & Hsel1 & Hcharge
            & [(_ & _ & H400) | (pm & Hpm & [(_ & H400) | (Htables & _)])])];
      try (rewrite H400 in H200; discriminate H200).
    rewrite Hsel in Hsel1. injection Hsel1 as <- <-.
    exists (payment_record s row0 req_body pm intent), intent.
    rewrite Htables. repeat split. exact Hcharge.
Qed.

(** X5 on the order of the scenario. *)
Lemma ProcessPayment_charges_stored_total_witness :
  exists p intent,
    stub_success {| stripe.amount := 5500; stripe.currency := "usd";
                    stripe.payment_method := Some "tok_visa"; stripe.confirm := true |}
    = inr intent
    /\ payments (tables (fst (ProcessPayment "alice" pay_order_1 stub_success [] placed)))
       = payments (tables placed) ++ [p]
    /\ p_order_id p = 1
    /\ p_amount p = 5500
    /\ p_status p = "completed"
    /\ p_transaction_id p = stripe.id intent.
Proof.
  apply (proj2 (ProcessPayment_charges_stored_total "alice" pay_order_1 stub_success []
                  placed
                  {| o_id := 1; o_user_id := "alice"; o_status := "pending";
                     o_total_amount := 5500; o_shipping_address := "{}" |}
                  [] eq_refl)).
  vm_compute. reflexivity.
Defined.

(** X6.  [payment_method] is read from the body after the charge.  When it
    is missing, the gateway has accepted the charge but the NOT NULL
    constraint of [payments] refuses the row: the request answers 400 with
    that violation, no Payment row is recorded and the order keeps its
    status - every table is as before, whatever the faults of the store. *)
Theorem ProcessPayment_missing_payment_method (user : string)
    (req_body : payment_process_body) (charge : gateway) (s : Store)
    (row0 : order) (rest : list order) (intent : stripe.paymentIntent)
    (Hsel : orders_with (order_id req_body) user (tables s) = row0 :: rest)
    (Haccepted : charge (charge_of row0 req_body) = inr intent)
    (Hmissing : payment_method req_body = None) :
  snd (ProcessPayment user req_body charge [] s)
    = Returned {| status := 400;
                  body := Caught (DatabaseError (not_null_violation "payment_method")) |}
  /\ (forall faults,
        tables (fst (ProcessPayment user req_body charge faults s)) = tables s
        /\ exists e, snd (ProcessPayment user req_body charge faults s)
                     = Returned {| status := 400; body := Caught e |}).
Proof.
  split.
  - unfold_handlers. cbn_client. cbn [hd tl]. unfold select_order. cbn_client.
    rewrite Hsel. cbn_client. fold (charge_of row0 req_body). rewrite Haccepted.
    cbn_client. cbn [hd tl]. unfold insert_payment. rewrite Hmissing. reflexivity.
  - intro faults.
    destruct (ProcessPayment_run user req_body charge faults s)
      as [(Hstore & H400)
         | (row1 & rest1 & intent1 & _ & _
            & [(_ & Htables & H400) | (pm & Hpm & _)])].
    + rewrite Hstore. split; [reflexivity | exact H400].
    + split; [exact Htables | eexists; exact H400].
    + rewrite Hmissing in Hpm. discriminate.
Qed.

(** X6 on the order of the scenario. *)
Lemma ProcessPayment_missing_payment_method_witness :
  snd (ProcessPayment "alice"
         {| order_id := 1; payment_method := None; token := Some "tok_visa" |}
         stub_success [] placed)
    = Returned {| status := 400;
                  body := Caught (DatabaseError (not_null_violation "payment_method")) |}
  /\ (forall faults,
        tables (fst (ProcessPayment "alice"
                       {| order_id := 1; payment_method := None; token := Some "tok_visa" |}
                       stub_success faults placed))
        = tables placed
        /\ exists e, snd (ProcessPayment "alice"
                            {| order_id := 1; payment_method := None;
                               token := Some "tok_visa" |}
                            stub_success faults placed)
                     = Returned {| status := 400; body := Caught e |}).
Proof.
  apply (ProcessPayment_missing_payment_method "alice"
           {| order_id := 1; payment_method := None; token := Some "tok_visa" |}
           stub_success placed
           {| o_id := 1; o_user_id := "alice"; o_status := "pending";
              o_total_amount := 5500; o_shipping_address := "{}" |}
           [] {| stripe.id := "pi_1" |});
    reflexivity.
Defined.

(** ** More on [POST /order/place] *)









(** ** More on the cart *)




Lemma flat_map_none {A B} (f : A -> list B) (l : list A) :
  (forall x, In x l -> f x = []) -> flat_map f l = [].
Proof.
  induction l as [| x rest IH]; cbn; intro H; [reflexivity |].
  rewrite (H x (or_introl eq_refl)). apply IH. intros y Hy. apply H. right. exact Hy.
Qed.







(** *** One user's requests and another user's cart *)

Lemma RemoveItem_tables (user : string) (itemId : Z) (faults : list bool) (s : Store) :
  tables (fst (RemoveItem user itemId faults s)) = tables s
  \/ tables (fst (RemoveItem user itemId faults s))
     = set_cart_items
         (filter (fun ci => negb ((ci_id ci =? itemId)%Z
                                  && in_cart_of user (tables s) (ci_cart_id ci)))
                 (cart_items (tables s)))
         (tables s).
Proof.
  unfold_handlers. cbn_client. on_fault faults; [left | right]; reflexivity.
Qed.

Lemma join_after_delete (carts : list shopping_cart) (keep : cart_item -> bool)
    (items : list cart_item) :
  (forall ci, In ci items -> keep ci = false ->
              filter (fun sc => (ci_cart_id ci =? sc_id sc)%Z) carts = []) ->
  flat_map
    (fun ci => map (fun _ => ci) (filter (fun sc => (ci_cart_id ci =? sc_id sc)%Z) carts))
    (filter keep items)
  = flat_map
      (fun ci => map (fun _ => ci) (filter (fun sc => (ci_cart_id ci =? sc_id sc)%Z) carts))
      items.
Proof.
  induction items as [| ci rest IH]; intro Hgone; [reflexivity |].
  cbn [filter flat_map].
  assert (IH' := IH (fun x Hx => Hgone x (or_intror Hx))).
  destruct (keep ci) eqn:Hkeep.
  - cbn [flat_map]. rewrite IH'. reflexivity.
  - rewrite (Hgone ci (or_introl eq_refl) Hkeep). cbn [map app]. exact IH'.
Qed.

Lemma not_in_other_cart (user other : string) (t : Tables) (cart_id : Z) :
  (forall sc sc', In sc (carts_of user t) -> In sc' (carts_of other t) ->
                  sc_id sc <> sc_id sc') ->
  in_cart_of user t cart_id = true ->
  filter (fun sc => (cart_id =? sc_id sc)%Z) (carts_of other t) = [].
Proof.
  intros Hdisjoint Hin. unfold in_cart_of in Hin. apply existsb_exists in Hin.
  destruct Hin as (sc & Hsc & Hid). apply Z.eqb_eq in Hid.
  apply filter_none. intros sc' Hsc'. apply Z.eqb_neq. intro Heq.
  apply (Hdisjoint sc sc' Hsc Hsc'). congruence.
Qed.

(** X13.  A user's requests leave the cart of another user alone.  When
    no cart of [user] shares its id with a cart of [other], what [GET /cart]
    returns to [other] is the same before and after a [POST /order/place]
    or a [DELETE /cart/remove/:itemId] of [user], whatever the request, the
    item id and the faults of the store. *)
Theorem other_cart_untouched (user other : string) (s : Store)
    (Hdisjoint : forall sc sc', In sc (carts_of user (tables s)) ->
                                In sc' (carts_of other (tables s)) ->
                                sc_id sc <> sc_id sc') :
  (forall req_body faults,
      cart_rows other (tables (fst (PlaceOrder user req_body faults s)))
      = cart_rows other (tables s))
  /\ (forall itemId faults,
        cart_rows other (tables (fst (RemoveItem user itemId faults s)))
        = cart_rows other (tables s)).
Proof.
  split.
  - intros req_body faults.
    destruct (PlaceOrder_run user req_body faults s)
      as [(Htables & _) | (addr & _ & _ & _ & Htables)]; rewrite Htables;
      [reflexivity |].
    unfold cart_rows at 1. cbn [cart_items]. unfold carts_of at 1. cbn [shopping_carts].
    fold (carts_of other (tables s)).
    apply join_after_delete. intros ci _ Hgone. apply negb_false_iff in Hgone.
    exact (not_in_other_cart user other (tables s) _ Hdisjoint Hgone).
  - intros itemId faults.
    destruct (RemoveItem_tables user itemId faults s) as [Htables | Htables];
      rewrite Htables; [reflexivity |].
    rewrite cart_rows_set_cart_items.
    apply join_after_delete. intros ci _ Hgone. apply negb_false_iff in Hgone.
    apply andb_true_iff in Hgone. destruct Hgone as (_ & Hin).
    exact (not_in_other_cart user other (tables s) _ Hdisjoint Hin).
Qed.

(** X13 in the store of the scenario after bob has put an item in a cart
    of his own: alice's order leaves bob's cart as it was. *)
Lemma other_cart_untouched_witness :
  (forall req_body faults,
      cart_rows "bob"
        (tables (fst (PlaceOrder "alice" req_body faults
                        (fst (AddItem "bob" (line "productA" 1 2000) [] two_line_cart)))))
      = cart_rows "bob"
          (tables (fst (AddItem "bob" (line "productA" 1 2000) [] two_line_cart))))
  /\ (forall itemId faults,
        cart_rows "bob"
          (tables (fst (RemoveItem "alice" itemId faults
                          (fst (AddItem "bob" (line "productA" 1 2000) [] two_line_cart)))))
        = cart_rows "bob"
            (tables (fst (AddItem "bob" (line "productA" 1 2000) [] two_line_cart)))).
Proof.
  apply (other_cart_untouched "alice" "bob"
           (fst (AddItem "bob" (line "productA" 1 2000) [] two_line_cart))).
  intros sc sc' Hsc Hsc'. vm_compute in Hsc, Hsc'.
  destruct Hsc as [<- | []]. destruct Hsc' as [<- | []]. vm_compute. discriminate.
Defined.

(** ** The read-only handlers *)

(** X14.  [GET /cart] and [GET /orders] never write: the store is the same
    after them, whatever the faults.  A rejected query is answered 500 (the
    other handlers answer 400); otherwise the answer is 200 with the rows
    - for [GET /orders] the orders of the caller, each once - and for a
    user who has no cart [GET /cart] returns the empty list. *)
Theorem read_only_handlers (user : string) (faults : list bool) (s : Store) :
  fst (GetCart user faults s) = s
  /\ fst (ListOrders user faults s) = s
  /\ (hd false faults = true ->
      snd (GetCart user faults s)
        = Returned {| status := 500; body := Caught (DatabaseError statement_rejected) |}
      /\ snd (ListOrders user faults s)
         = Returned {| status := 500; body := Caught (DatabaseError statement_rejected) |})
  /\ (hd false faults = false ->
      snd (GetCart user faults s)
        = Returned {| status := 200; body := CartItemRows (cart_rows user (tables s)) |}
      /\ exists rows, snd (ListOrders user faults s)
                      = Returned {| status := 200; body := OrderRows rows |}
                      /\ Permutation (map fst rows)
                           (filter (fun o => o_user_id o =? user) (orders (tables s))))
  /\ (carts_of user (tables s) = [] -> cart_rows user (tables s) = []).
Proof.
  split; [apply GetCart_store |]. split; [apply ListOrders_store |].
  split; [| split].
  - intro Hfault. unfold_handlers. cbn_client. rewrite Hfault. split; reflexivity.
  - intro Hfault. unfold_handlers. cbn_client. rewrite Hfault. cbn_client.
    split; [reflexivity |]. eexists. split; [reflexivity |].
    rewrite map_map. cbn [fst]. rewrite map_id.
    apply Permutation_sym, Permutation_rev.
  - intro Hnone. unfold cart_rows. rewrite Hnone. apply flat_map_none. reflexivity.
Qed.

(** X14 with a rejected query on the cart of the scenario. *)
Lemma read_only_handlers_witness :
  snd (GetCart "alice" [true] two_line_cart)
    = Returned {| status := 500; body := Caught (DatabaseError statement_rejected) |}
  /\ snd (ListOrders "alice" [true] two_line_cart)
     = Returned {| status := 500; body := Caught (DatabaseError statement_rejected) |}.
Proof.
  apply (proj1 (proj2 (proj2 (read_only_handlers "alice" [true] two_line_cart)))).
  reflexivity.
Defined.

(** ** The [auth] middleware in front of every route *)

Lemma substring_all (t : string) : substring 0 (String.length t) t = t.
Proof. induction t as [| a t IH]; cbn; [reflexivity | rewrite IH; reflexivity]. Qed.

Lemma js_replace_Bearer (t : string) : js_replace "Bearer " "" (String.append "Bearer " t) = t.
Proof.
  unfold js_replace.
  assert (Hprefix : prefix "Bearer " (String.append "Bearer " t) = true)
    by (apply prefix_correct; cbn; destruct t; reflexivity).
  cbn [String.append index]. cbn [String.append] in Hprefix. rewrite Hprefix.
  cbn. rewrite Nat.sub_0_r. apply substring_all.
Qed.

(** X15.  How a request is authenticated.  The middleware removes the
    first 'Bearer ' from the Authorization header and verifies what is
    left.  With a token that verifies, the header 'Bearer <token>' has the
    request served as the handler serves it for the id in the token; the
    scheme itself is not required: a header that is the bare token, with
    no 'Bearer ' in it, is served the same way.  A request without the
    header, or whose token does not verify, is answered 401 'Please
    authenticate.' and the store is not touched. *)
Theorem route_authenticates (jwt_verify : string -> option string) (token id : string)
    (request : string -> call) (faults : list bool) (s : Store)
    (Hverified : jwt_verify token = Some id) :
  route jwt_verify (Some (String.append "Bearer " token)) request faults s
    = (fst (handle (request id) faults s), Handled (snd (handle (request id) faults s)))
  /\ (index 0 "Bearer " token = None ->
      route jwt_verify (Some token) request faults s
      = (fst (handle (request id) faults s), Handled (snd (handle (request id) faults s))))
  /\ route jwt_verify None request faults s = (s, Refused 401 "Please authenticate.")
  /\ (forall header,
        jwt_verify (js_replace "Bearer " "" header) = None ->
        route jwt_verify (Some header) request faults s
        = (s, Refused 401 "Please authenticate.")).
Proof.
  unfold route, auth. split; [| split; [| split]].
  - rewrite js_replace_Bearer, Hverified. reflexivity.
  - intro Hindex. unfold js_replace. rewrite Hindex, Hverified. reflexivity.
  - reflexivity.
  - intros header Hrefused. rewrite Hrefused. reflexivity.
Qed.

(** X15 with a verifier that knows one token. *)
Lemma route_authenticates_witness :
  route (fun t => if t =? "t0k3n" then Some "alice" else None)
        (Some "Bearer t0k3n") (fun id => CartGet id) [] two_line_cart
    = (fst (handle (CartGet "alice") [] two_line_cart),
       Handled (snd (handle (CartGet "alice") [] two_line_cart)))
  /\ (index 0 "Bearer " "t0k3n" = None ->
      route (fun t => if t =? "t0k3n" then Some "alice" else None)
            (Some "t0k3n") (fun id => CartGet id) [] two_line_cart
      = (fst (handle (CartGet "alice") [] two_line_cart),
         Handled (snd (handle (CartGet "alice") [] two_line_cart))))
  /\ route (fun t => if t =? "t0k3n" then Some "alice" else None)
           None (fun id => CartGet id) [] two_line_cart
     = (two_line_cart, Refused 401 "Please authenticate.")
  /\ (forall header,
        (fun t => if t =? "t0k3n" then Some "alice" else None)
          (js_replace "Bearer " "" header) = None ->
        route (fun t => if t =? "t0k3n" then Some "alice" else None)
              (Some header) (fun id => CartGet id) [] two_line_cart
        = (two_line_cart, Refused 401 "Please authenticate.")).
Proof.
  apply (route_authenticates (fun t => if t =? "t0k3n" then Some "alice" else None)
           "t0k3n" "alice" (fun id => CartGet id) [] two_line_cart).
  reflexivity.
Defined.

(** ** How the cart handlers compose *)

Lemma AddItem_201_no_fault (user : string) (req_body : cart_add_body) (faults : list bool)
    (s : Store) :
  snd (AddItem user req_body faults s)
    = Returned {| status := 201; body := Message "Item added to cart" |} ->
  forall k,
    (k < (if (List.length (carts_of user (tables s)) =? 0)%nat then 5 else 4))%nat ->
    nth k faults false = false.
Proof.
  unfold_handlers. cbn_client.
  destruct (hd false faults) eqn:H0; cbn_client; [discriminate |].
  destruct (hd false (tl faults)) eqn:H1; cbn_client; [discriminate |].
  unfold select_shopping_carts. cbn_client.
  rewrite hd_nth in H0, H1. rewrite <- nth_tl in H1.
  destruct (carts_of user (tables s)) as [| row0 rest];
    cbn [List.length Nat.eqb]; cbn_client.
  - destruct (hd false (tl (tl faults))) eqn:H2; cbn_client; [discriminate |].
    unfold insert_shopping_cart. cbn_client.
    destruct (hd false (tl (tl (tl faults)))) eqn:H3; cbn_client; [discriminate |].
    unfold insert_cart_item.
    destruct (product_id req_body), (quantity req_body), (price req_body); cbn_client;
      try discriminate.
    destruct (hd false (tl (tl (tl (tl faults))))) eqn:H4; cbn_client; [discriminate |].
    rewrite hd_nth in H2, H3, H4.
    repeat rewrite <- nth_tl in H2. repeat rewrite <- nth_tl in H3.
    repeat rewrite <- nth_tl in H4.
    intros _ k Hk. cbn in Hk. destruct k as [| [| [| [| [| k]]]]]; try assumption. lia.
  - destruct (hd false (tl (tl faults))) eqn:H2; cbn_client; [discriminate |].
    unfold insert_cart_item.
    destruct (product_id req_body), (quantity req_body), (price req_body); cbn_client;
      try discriminate.
    destruct (hd false (tl (tl (tl faults)))) eqn:H3; cbn_client; [discriminate |].
    rewrite hd_nth in H2, H3.
    repeat rewrite <- nth_tl in H2. repeat rewrite <- nth_tl in H3.
    intros _ k Hk. cbn in Hk. destruct k as [| [| [| [| k]]]]; try assumption. lia.
Qed.

(** X16.  [POST /cart/add] is all or nothing.  Whatever the request and
    the faults of the store it ends in one of two ways.  Either it answers
    400 and every table is as before - in particular a cart row inserted
    by the request is gone with the rollback.  Or it answers 201 and
    exactly one cart item, with the product id, quantity and price of the
    request, has been added: to the first cart of the user when there is
    one, and otherwise to a cart created for the user by the same
    transaction.  A statement the store rejects (BEGIN, the SELECT, the
    INSERT of the cart when there is none, the INSERT of the item, COMMIT)
    always gives the first. *)
Theorem AddItem_all_or_nothing (user : string) (req_body : cart_add_body)
    (faults : list bool) (s : Store) :
  ((tables (fst (AddItem user req_body faults s)) = tables s
    /\ exists e, snd (AddItem user req_body faults s)
                 = Returned {| status := 400; body := Caught e |})
   \/ (exists item,
         snd (AddItem user req_body faults s)
           = Returned {| status := 201; body := Message "Item added to cart" |}
         /\ cart_items (tables (fst (AddItem user req_body faults s)))
            = cart_items (tables s) ++ [item]
         /\ product_id req_body = Some (ci_product_id item)
         /\ quantity req_body = Some (ci_quantity item)
         /\ price req_body = Some (ci_price item)
         /\ ((exists row0 rest,
                carts_of user (tables s) = row0 :: rest
                /\ ci_cart_id item = sc_id row0
                /\ shopping_carts (tables (fst (AddItem user req_body faults s)))
                   = shopping_carts (tables s))
             \/ (exists cart,
                   carts_of user (tables s) = []
                   /\ ci_cart_id item = sc_id cart /\ sc_user_id cart = user
                   /\ shopping_carts (tables (fst (AddItem user req_body faults s)))
                      = shopping_carts (tables s) ++ [cart]))))
  /\ (forall k,
        (k < (if (List.length (carts_of user (tables s)) =? 0)%nat then 5 else 4))%nat ->
        nth k faults false = true ->
        tables (fst (AddItem user req_body faults s)) = tables s
        /\ exists e, snd (AddItem user req_body faults s)
                     = Returned {| status := 400; body := Caught e |}).
Proof.
  destruct (AddItem_run user req_body faults s)
    as [H400
       | (pid & qty & pr & Hpid & Hqty & Hpr & H201
          & [(row0 & rest & Hcarts & Htables) | (Hnone & Htables)])].
  - split; [left; exact H400 | intros; exact H400].
  - split.
    + right. exists (added_item s (sc_id row0) pid qty pr).
      rewrite Htables. repeat split; try assumption.
      left. exists row0, rest. repeat split. exact Hcarts.
    + intros k Hk Hfault.
      rewrite (AddItem_201_no_fault user req_body faults s H201 k Hk) in Hfault.
      discriminate.
  - split.
    + right. exists (added_item s (sc_id (created_cart s user)) pid qty pr).
      rewrite Htables. repeat split; try assumption.
      right. exists (created_cart s user). repeat split. exact Hnone.
    + intros k Hk Hfault.
      rewrite (AddItem_201_no_fault user req_body faults s H201 k Hk) in Hfault.
      discriminate.
Qed.

(** X16 for bob, who has no cart: the store runs the INSERT of his cart
    and rejects the INSERT of the item. *)
Lemma AddItem_all_or_nothing_witness :
  tables (fst (AddItem "bob" (line "productA" 1 2000) [false; false; false; true]
                 two_line_cart))
  = tables two_line_cart
  /\ exists e, snd (AddItem "bob" (line "productA" 1 2000) [false; false; false; true]
                      two_line_cart)
               = Returned {| status := 400; body := Caught e |}.
Proof.
  apply (proj2 (AddItem_all_or_nothing "bob" (line "productA" 1 2000)
                  [false; false; false; true] two_line_cart) 3%nat).
  - vm_compute. lia.
  - reflexivity.
Defined.





